(** * edx-notifications: the timer scheduling engine

    A shallow embedding of [edx_notifications/timer.py]
    ([poll_and_execute_timers], [register_purge_notifications_timer]),
    of the constants of [edx_notifications/const.py] it reads and of the
    timer row of [edx_notifications/stores/sql/models.py].

    Conventions of the embedding:
    - a timezone-aware UTC [datetime] is an integer count of microseconds on
      the UTC time line (no daylight saving in UTC, so calendar arithmetic
      is integer arithmetic);
    - Python exceptions are the instances of [Exception]; interpreter exit
      signals are outside the model;
    - the scan pass is given twice: first under the conventions that every
      exception has a text and that adding an interval to a date gives a
      date, then without them (the checked engine: [str(ex)] may raise,
      and dates are bounded as those of [datetime] are);
    - a handler is a function of the timer it is given: it returns a
      payload or raises, and it writes no timer row itself;
    - the code is effectful (store, clock, log): it is written in a small
      state-and-exception monad [M] over a [World]. *)

From Stdlib Require Import ZArith String Ascii List Lia.
From stdpp Require Import base option list gmap strings fin_maps.

Local Open Scope string_scope.
Local Open Scope Z_scope.

(** ** Time *)

Module PyTime.

(** [datetime], in microseconds. *)
Definition datetime := Z.

Definition USEC_PER_SECOND : Z := 1000000.
Definition USEC_PER_MINUTE : Z := 60 * USEC_PER_SECOND.
Definition USEC_PER_HOUR : Z := 60 * USEC_PER_MINUTE.
Definition USEC_PER_DAY : Z := 24 * USEC_PER_HOUR.

(** [timedelta(minutes=m)] and [timedelta(days=d)]. *)
Definition timedelta_minutes (m : Z) : Z := m * USEC_PER_MINUTE.
Definition timedelta_days (d : Z) : Z := d * USEC_PER_DAY.

(** The calendar day of a datetime (days since the origin) and its time of
    day (microseconds since midnight). *)
Definition date_of (t : datetime) : Z := t `div` USEC_PER_DAY.
Definition time_of_day (t : datetime) : Z := t `mod` USEC_PER_DAY.

(** [dt.replace(hour=h, minute=mi, second=s, microsecond=us)]: same date,
    new time of day. *)
Definition replace_time (t : datetime) (h mi s us : Z) : datetime :=
  date_of t * USEC_PER_DAY
  + h * USEC_PER_HOUR + mi * USEC_PER_MINUTE + s * USEC_PER_SECOND + us.

End PyTime.
Export PyTime.

(** ** Python 2 [str] and [repr] on the values the engine prints *)

Module PyStr.

Local Open Scope char_scope.

Definition hex_digit (n : N) : ascii :=
  match n with
  | 0%N => "0" | 1%N => "1" | 2%N => "2" | 3%N => "3" | 4%N => "4"
  | 5%N => "5" | 6%N => "6" | 7%N => "7" | 8%N => "8" | 9%N => "9"
  | 10%N => "a" | 11%N => "b" | 12%N => "c" | 13%N => "d" | 14%N => "e"
  | _ => "f"
  end.

Fixpoint contains (c : ascii) (s : string) : bool :=
  match s with
  | EmptyString => false
  | String d s' => if Ascii.eqb c d then true else contains c s'
  end.

Definition dquote : ascii := "034".
Definition backslash : ascii := "092".

(** The quote [repr] picks for a byte string: a single quote, unless the
    string has a single quote and no double quote. *)
Definition repr_quote (s : string) : ascii :=
  if contains "'" s && negb (contains dquote s) then dquote else "'".

Definition repr_char (quote c : ascii) : string :=
  if Ascii.eqb c quote || Ascii.eqb c backslash then String backslash (String c EmptyString)
  else if Ascii.eqb c "009" then String backslash (String "t" EmptyString)
  else if Ascii.eqb c "010" then String backslash (String "n" EmptyString)
  else if Ascii.eqb c "013" then String backslash (String "r" EmptyString)
  else if (N_of_ascii c <? 32)%N || (127 <=? N_of_ascii c)%N then
    String backslash (String "x"
      (String (hex_digit (N_of_ascii c / 16))
        (String (hex_digit (N_of_ascii c mod 16)) EmptyString)))
  else String c EmptyString.

Fixpoint repr_body (quote : ascii) (s : string) : string :=
  match s with
  | EmptyString => EmptyString
  | String c s' => (repr_char quote c ++ repr_body quote s')%string
  end.

(** [repr(s)] for a byte string [s]. *)
Definition repr_str (s : string) : string :=
  let q := repr_quote s in
  String q (repr_body q s ++ String q EmptyString)%string.

Fixpoint join_reprs (l : list string) : string :=
  match l with
  | [] => EmptyString
  | [x] => repr_str x
  | x :: l' => (repr_str x ++ ", " ++ join_reprs l')%string
  end.

(** [str(l)] for a list [l] of byte strings: the [repr] of the elements,
    comma separated, in square brackets. *)
Definition str_list (l : list string) : string :=
  ("[" ++ join_reprs l ++ "]")%string.

End PyStr.

(** ** Data model *)

(** [timer.class_name.rpartition('.')]: the text before the last dot, the
    dot, and the text after it; without a dot, two empty strings and the
    whole text. *)
Fixpoint rsplit_dot (s : string) : option (string * string) :=
  match s with
  | EmptyString => None
  | String c s' =>
      match rsplit_dot s' with
      | Some (h, t) => Some (String c h, t)
      | None => if Ascii.eqb c "." then Some (EmptyString, s') else None
      end
  end.

Definition rpartition_dot (s : string) : string * string * string :=
  match rsplit_dot s with
  | Some (h, t) => (h, ".", t)
  | None => (EmptyString, EmptyString, s)
  end.

(** Exceptions: the store's [ItemNotFoundError] and every other instance of
    [Exception]; both carry their message, which is what [str(ex)] gives
    when it gives a text ([py_str], in the checked engine, is [str(ex)]
    with its failure). *)
Inductive exn : Type :=
| ItemNotFoundError (msg : string)
| OtherException (msg : string).

Definition str_exn (ex : exn) : string :=
  match ex with
  | ItemNotFoundError msg => msg
  | OtherException msg => msg
  end.

(** Modelled from the spec: the handler classes and their base class are
    not in the sources at hand. The payload a timer callback returns is
    "{ errors: sequence<string>, reschedule_in_minutes: optional<int>,
    ...other result fields }", a dictionary that timer.py reads through
    [results.get('errors')] and [results.get('reschedule_in_mins')]. An
    absent key and a [None] value read the same ([None]); the other keys
    are kept as they are. *)
Record CallbackResults : Type := mkResults {
  errors : option (list string);
  reschedule_in_mins : option Z;
  other_results : list (string * string)
}.

(** [NotificationCallbackTimer], with the columns of
    [SQLNotificationCallbackTimer] ([created] and [modified], which the
    engine never reads or assigns, are left out). *)
Record NotificationCallbackTimer : Type := mkTimer {
  name : string;
  callback_at : datetime;
  class_name : string;
  context : option string;
  is_active : bool;
  periodicity_min : option Z;
  executed_at : option datetime;
  err_msg : option string;
  results : option CallbackResults
}.

Abbreviation Timer := NotificationCallbackTimer.

(** Attribute assignments [timer.f = v]. *)
Definition set_callback_at (v : datetime) (t : Timer) : Timer :=
  mkTimer (name t) v (class_name t) (context t) (is_active t)
          (periodicity_min t) (executed_at t) (err_msg t) (results t).
Definition set_is_active (v : bool) (t : Timer) : Timer :=
  mkTimer (name t) (callback_at t) (class_name t) (context t) v
          (periodicity_min t) (executed_at t) (err_msg t) (results t).
Definition set_executed_at (v : option datetime) (t : Timer) : Timer :=
  mkTimer (name t) (callback_at t) (class_name t) (context t) (is_active t)
          (periodicity_min t) v (err_msg t) (results t).
Definition set_err_msg (v : option string) (t : Timer) : Timer :=
  mkTimer (name t) (callback_at t) (class_name t) (context t) (is_active t)
          (periodicity_min t) (executed_at t) v (results t).
Definition set_results (v : option CallbackResults) (t : Timer) : Timer :=
  mkTimer (name t) (callback_at t) (class_name t) (context t) (is_active t)
          (periodicity_min t) (executed_at t) (err_msg t) v.

(** Python truth values of the two entries the engine tests. *)
Definition truthy_errors (e : option (list string)) : bool :=
  match e with
  | Some (_ :: _) => true
  | _ => false
  end.

Definition truthy_int (d : option Z) : bool :=
  match d with
  | Some z => negb (z =? 0)
  | None => false
  end.

(** [str(results['errors'])], read when the entry is truthy. *)
Definition str_errors (e : option (list string)) : string :=
  match e with
  | Some l => PyStr.str_list l
  | None => "None"
  end.

(** ** The Python environment *)

(** A handler instance: its [notification_timer_callback(timer)] returns a
    payload or raises. Handlers are external to the engine and are taken
    as functions of the timer they receive; they write no timer record. *)
Definition Handler : Type := Timer -> exn + CallbackResults.

(** A class: calling it with no argument gives a handler or raises. *)
Definition PyClass : Type := exn + Handler.

(** A module: [getattr(module, name)] gives a class or raises. *)
Definition PyModule : Type := string -> exn + PyClass.

(** What the engine observes, in order. *)
Inductive Event : Type :=
| EvSave (t : Timer)           (* store.save_notification_timer(t) *)
| EvResolve (t : Timer)        (* import_module, getattr and class_() for t *)
| EvCallback (t : Timer)       (* handler.notification_timer_callback(t) *)
| EvLogException (ex : exn).   (* log.exception(ex) *)

Definition event_timer (e : Event) : option string :=
  match e with
  | EvSave t | EvResolve t | EvCallback t => Some (name t)
  | EvLogException _ => None
  end.

(** The state the code runs in: the timer table of the notification store
    (primary key [name]), the number of clock readings made so far, and
    the events so far, oldest first. *)
Record World : Type := mkWorld {
  store : gmap string Timer;
  ticks : nat;
  log : list Event
}.

(** ** The state-and-exception monad *)

Inductive result (A : Type) : Type :=
| Ok (a : A)
| Raise (ex : exn).
Arguments Ok {A} a.
Arguments Raise {A} ex.

Definition M (A : Type) : Type := World -> result A * World.

Definition ret {A} (a : A) : M A := fun w => (Ok a, w).

Definition bind {A B} (m : M A) (k : A -> M B) : M B :=
  fun w =>
    match m w with
    | (Ok a, w') => k a w'
    | (Raise ex, w') => (Raise ex, w')
    end.

Definition raise {A} (ex : exn) : M A := fun w => (Raise ex, w).

(** [try: body except Exception, ex: handler]: what [body] did to the world
    before raising stays done. *)
Definition try_except {A} (body : M A) (handler : exn -> M A) : M A :=
  fun w =>
    match body w with
    | (Ok a, w') => (Ok a, w')
    | (Raise ex, w') => handler ex w'
    end.

(** [try: body except ItemNotFoundError: handler]: any other exception
    goes on to the caller. *)
Definition try_except_not_found {A} (body : M A) (handler : M A) : M A :=
  try_except body (fun ex =>
    match ex with
    | ItemNotFoundError _ => handler
    | OtherException _ => raise ex
    end).

Definition lift {A} (r : exn + A) : M A :=
  match r with
  | inl ex => raise ex
  | inr a => ret a
  end.

Definition emit (e : Event) : M unit :=
  fun w => (Ok tt, mkWorld (store w) (ticks w) (log w ++ [e])).

(** Sequencing is written with stdpp's monad notations:
    [x ← m; k] and [m ;; k]. *)
#[export] Instance M_ret : MRet M := @ret.
#[export] Instance M_bind : MBind M := fun A B k m => bind m k.

(** [for x in l: body x]. *)
Fixpoint for_each {A} (l : list A) (body : A -> M unit) : M unit :=
  match l with
  | [] => ret tt
  | x :: l' => body x ;; for_each l' body
  end.

(** ** Constants ([const.py]) *)

(** [getattr(settings, 'NOTIFICATION_MINIMUM_PERIODICITY_MINS', 60)]: the
    configured value, if the settings have one. *)
Definition NOTIFICATION_MINIMUM_PERIODICITY_MINS (setting : option Z) : Z :=
  default 60 setting.

Definition MINUTES_IN_A_DAY : Z := 24 * 60.

Definition PURGE_TIMER_NAME : string := "purge-notifications-timer".
Definition PURGE_HANDLER_CLASS : string :=
  "edx_notifications.callbacks.PurgeNotificationsCallbackHandler".

(** ** The rows of the SQL store ([stores/sql/models.py]) *)

Module SQL.

Section Rows.

(** The dictionaries of the data objects, and [DictField.to_json] and
    [DictField.from_json] on them: the class [DictField] is not in the
    sources at hand and is taken as it comes. *)
Variable Dict : Type.
Variable to_json : option Dict -> option string.
Variable from_json : option string -> option Dict.

(** The same two functions on the context and on the results of a timer. *)
Variable context_to_json : option string -> option string.
Variable context_from_json : option string -> option string.
Variable results_to_json : option CallbackResults -> option string.
Variable results_from_json : option string -> option CallbackResults.

(** *** Notification types *)

(** The data object [NotificationType], as models.py builds and reads it. *)
Record NotificationType : Type := mkNotificationType {
  type_name : string;
  type_renderer : string
}.

Record SQLNotificationType : Type := mkSQLNotificationType {
  sqltype_name : string;
  sqltype_renderer : string
}.

(** Lines 38-46. *)
Definition type_to_data_object (self : SQLNotificationType) : NotificationType :=
  mkNotificationType (sqltype_name self) (sqltype_renderer self).

(** Lines 58-64: the assignments to [self]. *)
Definition type_load_from_data_object (self : SQLNotificationType)
    (msg_type : NotificationType) : SQLNotificationType :=
  mkSQLNotificationType (type_name msg_type) (type_renderer msg_type).

(** Lines 48-56; [obj] is what the constructor [SQLNotificationType()]
    returns. *)
Definition type_from_data_object (obj : SQLNotificationType)
    (msg_type : NotificationType) : SQLNotificationType :=
  type_load_from_data_object obj msg_type.

(** *** Notification messages *)

(** The data object [NotificationMessage], with the attributes models.py
    reads and passes. *)
Record NotificationMessage : Type := mkNotificationMessage {
  msg_id : option Z;
  msg_namespace : option string;
  msg_msg_type : NotificationType;
  msg_from_user_id : option Z;
  msg_deliver_no_earlier_than : option datetime;
  msg_expires_at : option datetime;
  msg_expires_secs_after_read : option Z;
  msg_payload : option Dict;
  msg_created : option datetime;
  msg_modified : option datetime
}.

(** [msg.validate()]: the exception it raises, if any. The method is not
    in the sources at hand. *)
Variable validate : NotificationMessage -> option exn.

Record SQLNotificationMessage : Type := mkSQLNotificationMessage {
  sqlmsg_id : option Z;
  sqlmsg_namespace : option string;
  sqlmsg_msg_type : SQLNotificationType;
  sqlmsg_from_user_id : option Z;
  sqlmsg_payload : option string;
  sqlmsg_deliver_no_earlier_than : option datetime;
  sqlmsg_expires_at : option datetime;
  sqlmsg_expires_secs_after_read : option Z;
  sqlmsg_priority : Z;
  sqlmsg_created : datetime;
  sqlmsg_modified : datetime
}.

(** Lines 100-118. *)
Definition msg_to_data_object (self : SQLNotificationMessage)
  : NotificationMessage :=
  mkNotificationMessage
    (sqlmsg_id self)
    (sqlmsg_namespace self)
    (type_to_data_object (sqlmsg_msg_type self))
    (sqlmsg_from_user_id self)
    (sqlmsg_deliver_no_earlier_than self)
    (sqlmsg_expires_at self)
    (sqlmsg_expires_secs_after_read self)
    (from_json (sqlmsg_payload self))
    (Some (sqlmsg_created self))
    (Some (sqlmsg_modified self)).

(** Lines 131-147: [msg.validate()] first, then the assignments to [self];
    the priority and the two timestamps of [self] are not assigned. The
    result is the exception raised, if any, and [self] as the call leaves
    it. [type_obj] is what the constructor [SQLNotificationType()]
    returns. *)
Definition msg_load_from_data_object (type_obj : SQLNotificationType)
    (self : SQLNotificationMessage) (msg : NotificationMessage)
  : option exn * SQLNotificationMessage :=
  match validate msg with
  | Some ex => (Some ex, self)
  | None =>
      (None,
       mkSQLNotificationMessage
         (msg_id msg)
         (msg_namespace msg)
         (type_from_data_object type_obj (msg_msg_type msg))
         (msg_from_user_id msg)
         (to_json (msg_payload msg))
         (msg_deliver_no_earlier_than msg)
         (msg_expires_at msg)
         (msg_expires_secs_after_read msg)
         (sqlmsg_priority self)
         (sqlmsg_created self)
         (sqlmsg_modified self))
  end.

(** Lines 120-129; [obj] is what [SQLNotificationMessage()] returns. *)
Definition msg_from_data_object (type_obj : SQLNotificationType)
    (obj : SQLNotificationMessage) (msg : NotificationMessage)
  : exn + SQLNotificationMessage :=
  match msg_load_from_data_object type_obj obj msg with
  | (Some ex, _) => inl ex
  | (None, obj') => inr obj'
  end.

(** *** User notifications *)

Record UserNotification : Type := mkUserNotification {
  un_id : option Z;
  un_user_id : Z;
  un_msg : NotificationMessage;
  un_read_at : option datetime;
  un_user_context : option Dict
}.

Record SQLUserNotification : Type := mkSQLUserNotification {
  sqlun_id : option Z;
  sqlun_user_id : Z;
  sqlun_msg : SQLNotificationMessage;
  sqlun_read_at : option datetime;
  sqlun_user_context : option string;
  sqlun_created : datetime;
  sqlun_modified : datetime
}.

(** Lines 172-183. *)
Definition un_to_data_object (self : SQLUserNotification) : UserNotification :=
  mkUserNotification
    (sqlun_id self)
    (sqlun_user_id self)
    (msg_to_data_object (sqlun_msg self))
    (sqlun_read_at self)
    (from_json (sqlun_user_context self)).

(** Lines 195-204: [id] and [user_id] are assigned before the message is
    converted, which may raise; [read_at] and [user_context] after it. The
    result is the exception raised, if any, and [self] as the call leaves
    it. [msg_obj] and [type_obj] are what the constructors
    [SQLNotificationMessage()] and [SQLNotificationType()] return. *)
Definition un_load_from_data_object (type_obj : SQLNotificationType)
    (msg_obj : SQLNotificationMessage) (self : SQLUserNotification)
    (user_msg : UserNotification) : option exn * SQLUserNotification :=
  match msg_from_data_object type_obj msg_obj (un_msg user_msg) with
  | inl ex =>
      (Some ex,
       mkSQLUserNotification
         (un_id user_msg) (un_user_id user_msg) (sqlun_msg self)
         (sqlun_read_at self) (sqlun_user_context self)
         (sqlun_created self) (sqlun_modified self))
  | inr sql_msg =>
      (None,
       mkSQLUserNotification
         (un_id user_msg)
         (un_user_id user_msg)
         sql_msg
         (un_read_at user_msg)
         (to_json (un_user_context user_msg))
         (sqlun_created self)
         (sqlun_modified self))
  end.

(** Lines 185-193; [obj] is what [SQLUserNotification()] returns. *)
Definition un_from_data_object (type_obj : SQLNotificationType)
    (msg_obj : SQLNotificationMessage) (obj : SQLUserNotification)
    (user_msg : UserNotification) : exn + SQLUserNotification :=
  match un_load_from_data_object type_obj msg_obj obj user_msg with
  | (Some ex, _) => inl ex
  | (None, obj') => inr obj'
  end.

(** *** Callback timers *)

Record SQLNotificationCallbackTimer : Type := mkSQLTimer {
  sqltimer_name : string;
  sqltimer_callback_at : datetime;
  sqltimer_class_name : string;
  sqltimer_context : option string;
  sqltimer_is_active : bool;
  sqltimer_periodicity_min : option Z;
  sqltimer_executed_at : option datetime;
  sqltimer_err_msg : option string;
  sqltimer_results : option string;
  sqltimer_created : datetime;
  sqltimer_modified : datetime
}.

(** The data object a row gives: the attributes of the timer, with the
    two timestamps of the row. *)
Record TimestampedTimer : Type := mkTimestampedTimer {
  timer_of : Timer;
  timer_created : option datetime;
  timer_modified : option datetime
}.

(** Lines 258-275. *)
Definition timer_to_data_object (self : SQLNotificationCallbackTimer)
  : TimestampedTimer :=
  mkTimestampedTimer
    (mkTimer (sqltimer_name self)
             (sqltimer_callback_at self)
             (sqltimer_class_name self)
             (context_from_json (sqltimer_context self))
             (sqltimer_is_active self)
             (sqltimer_periodicity_min self)
             (sqltimer_executed_at self)
             (sqltimer_err_msg self)
             (results_from_json (sqltimer_results self)))
    (Some (sqltimer_created self))
    (Some (sqltimer_modified self)).

(** Lines 287-300: the assignments to [self]; its two timestamps are not
    assigned. *)
Definition timer_load_from_data_object (self : SQLNotificationCallbackTimer)
    (notification_timer : Timer) : SQLNotificationCallbackTimer :=
  mkSQLTimer
    (name notification_timer)
    (callback_at notification_timer)
    (class_name notification_timer)
    (context_to_json (context notification_timer))
    (is_active notification_timer)
    (periodicity_min notification_timer)
    (executed_at notification_timer)
    (err_msg notification_timer)
    (results_to_json (results notification_timer))
    (sqltimer_created self)
    (sqltimer_modified self).

(** Lines 277-285; [obj] is what [SQLNotificationCallbackTimer()]
    returns. *)
Definition timer_from_data_object (obj : SQLNotificationCallbackTimer)
    (notification_timer : Timer) : SQLNotificationCallbackTimer :=
  timer_load_from_data_object obj notification_timer.

End Rows.

End SQL.

(** ** Concrete handlers, modules and worlds *)

Module Examples.

Definition clock (k : nat) : datetime := 1000 + Z.of_nat k.

(** One module, [jobs], with three classes: [Fine] returns the payload
    [res], [Crash] raises in its callback, [Broken] cannot be
    instantiated. *)
Definition jobs (res : CallbackResults) : PyModule :=
  fun class_attr =>
    if String.eqb class_attr "Fine" then inr (inr (fun _ => inr res))
    else if String.eqb class_attr "Crash" then
      inr (inr (fun _ => inl (OtherException "boom")))
    else if String.eqb class_attr "Broken" then
      inr (inl (OtherException "cannot instantiate"))
    else inl (OtherException "no such attribute").

Definition import_module (res : CallbackResults) (path : string)
  : exn + PyModule :=
  if String.eqb path "jobs" then inr (jobs res)
  else inl (OtherException "No module named that").

Definition no_errors : CallbackResults := mkResults (Some []) None [].
Definition reschedule (r : Z) : CallbackResults := mkResults None (Some r) [].
Definition quota : CallbackResults :=
  mkResults (Some ["quota exceeded"]) None [].

Definition timer (n cls : string) (p : option Z) (err : option string) : Timer :=
  mkTimer n 500 cls None true p None err None.

Definition world (l : list Timer) : World :=
  mkWorld (list_to_map ((fun t => (name t, t)) <$> l)) 0 [].

Definition empty_world : World := mkWorld ∅ 0 [].

Definition crashing : Timer := timer "alpha" "jobs.Crash" (Some 120) None.
Definition fine : Timer := timer "beta" "jobs.Fine" (Some 120) None.
Definition two_timers : World := world [crashing; fine].

(** A timer that was deactivated earlier. *)
Definition set_aside : Timer :=
  set_is_active false (timer "gamma" "jobs.Fine" (Some 120) (Some "boom")).

Definition purge_like : Timer :=
  timer "purge-notifications-timer" "jobs.Fine" (Some 1440) (Some "boom").

(** A JSON codec for the context (kept as its text) and one for the
    results that knows a single payload. *)
Definition context_to_json (c : option string) : option string := c.
Definition context_from_json (s : option string) : option string := s.
Definition results_to_json (r : option CallbackResults) : option string :=
  match r with
  | Some _ => Some "{errors: []}"
  | None => None
  end.
Definition results_from_json (s : option string) : option CallbackResults :=
  match s with
  | Some _ => Some no_errors
  | None => None
  end.

(** A validation that asks for a namespace, freshly constructed rows, and
    two messages. *)
Definition validate (msg : SQL.NotificationMessage string) : option exn :=
  match SQL.msg_namespace string msg with
  | Some _ => None
  | None => Some (OtherException "namespace is missing")
  end.

Definition type_obj : SQL.SQLNotificationType :=
  SQL.mkSQLNotificationType "" "".
Definition msg_obj : SQL.SQLNotificationMessage :=
  SQL.mkSQLNotificationMessage None None type_obj None None None None None
    0 900 900.
Definition un_obj : SQL.SQLUserNotification :=
  SQL.mkSQLUserNotification None 0 msg_obj None None 950 950.
Definition timer_obj : SQL.SQLNotificationCallbackTimer :=
  SQL.mkSQLTimer "" 0 "" None true None None None None 990 990.

Definition good_msg : SQL.NotificationMessage string :=
  SQL.mkNotificationMessage string (Some 7) (Some "course-1")
    (SQL.mkNotificationType "open-edx.forum.reply" "underscore")
    (Some 42) None (Some 5000) None (Some "{title: hello}") None None.
Definition bad_msg : SQL.NotificationMessage string :=
  SQL.mkNotificationMessage string None None
    (SQL.mkNotificationType "open-edx.forum.reply" "underscore")
    None None None None None None None.

(** A timer that still carries the message of an earlier failure. *)
Definition recovered : Timer :=
  timer "job" "jobs.Fine" (Some 120) (Some "boom").

(** An intervention from outside the engine: the in-flight mark of the
    row named [n] is reset by hand. *)
Definition nudge (n : string) (w : World) : World :=
  mkWorld (alter (set_executed_at None) n (store w)) (ticks w) (log w).

End Examples.

(** ** Handlers whose exceptions have no text, and dates out of range *)

Module Unicode.

(** The exception a handler raises with a unicode message, as
    [Exception(u'\xe9')] under Python 2, and the [UnicodeEncodeError] that
    [str] raises on it. *)
Definition garbled : exn := OtherException "<exception with a unicode message>".
Definition unicode_error : exn :=
  OtherException "'ascii' codec can't encode character".

Definition str_failure (ex : exn) : option exn :=
  match ex with
  | OtherException msg =>
      if String.eqb msg "<exception with a unicode message>"
      then Some unicode_error else None
  | ItemNotFoundError _ => None
  end.

Definition overflow_error (at_ : datetime) (delta : Z) : exn :=
  OtherException "date value out of range".

(** The module [jobs] of the examples, with one more class, [Garbled],
    whose callback raises the exception without text. *)
Definition jobs (res : CallbackResults) : PyModule :=
  fun class_attr =>
    if String.eqb class_attr "Garbled" then inr (inr (fun _ => inl garbled))
    else Examples.jobs res class_attr.

Definition import_module (res : CallbackResults) (path : string)
  : exn + PyModule :=
  if String.eqb path "jobs" then inr (jobs res)
  else inl (OtherException "No module named that").

Definition garbling : Timer :=
  Examples.timer "alpha" "jobs.Garbled" (Some 120) None.
Definition garbled_first : World := Examples.world [garbling; Examples.fine].

(** A timer whose periodicity is beyond the range of the dates. *)
Definition endless : Timer :=
  Examples.timer "job" "jobs.Fine" (Some 10000000000000) None.

End Unicode.

(** ** The engine ([timer.py]) *)

Section Engine.

(** The [k]-th reading of the clock, [datetime.now(pytz.UTC)]. *)
Variable clock : nat -> datetime.

(** [import_module(module_path)]: the module, or the exception raised. *)
Variable import_module : string -> exn + PyModule.

(** The Django setting of the minimum periodicity, if any. *)
Variable min_periodicity_setting : option Z.

Definition datetime_now : M datetime :=
  fun w => (Ok (clock (ticks w)), mkWorld (store w) (S (ticks w)) (log w)).

(** *** The notification store *)

Definition read_store : M (gmap string Timer) :=
  fun w => (Ok (store w), w).

(** Modelled from the spec: [store.save_notification_timer] is not in the
    sources at hand. "save_timer(record) -> void" on a table whose primary
    key is [name] (models.py): the row of that name is created or
    replaced. Saving does not fail. *)
Definition save_notification_timer (timer : Timer) : M unit :=
  fun w =>
    (Ok tt, mkWorld (<[name timer := timer]> (store w)) (ticks w)
                    (log w ++ [EvSave timer])).

(** Modelled from the spec: [store.get_notification_timer] is not in the
    sources at hand. "get_timer(name) -> TimerRecord, fails with
    NotFoundError when absent". *)
Definition get_notification_timer (n : string) : M Timer :=
  rows ← read_store;
  match rows !! n with
  | Some t => mret t
  | None => raise (ItemNotFoundError n)
  end.

(** Modelled from the spec: the filter of [store.get_all_active_timers],
    which is not in the sources at hand. A timer the scan picks up at [now]
    is active, due, and not marked as executed. *)
Definition eligible (now : datetime) (t : Timer) : bool :=
  is_active t && (callback_at t <=? now) && bool_decide (executed_at t = None).

(** Modelled from the spec: [store.get_all_active_timers] is not in the
    sources at hand. "Query the Store for all Timer Records where
    is_active = true and callback_at is due (<= now)"; a timer whose
    [executed_at] is set is not picked up again (the spec's in-flight
    marker, and the comment of timer.py where [executed_at] is reset).
    The rows come in the order of the table. *)
Definition get_all_active_timers : M (list Timer) :=
  now ← datetime_now;
  rows ← read_store;
  mret (filter (fun t => eligible now t = true) (map_to_list rows).*2).

(** *** Resolving and calling a handler *)

(** Lines 46-50: split [class_name], import the module, read the class
    and instantiate it. *)
Definition resolve_handler (timer : Timer) : M Handler :=
  let '(module_path, _, class_attr) := rpartition_dot (class_name timer) in
  emit (EvResolve timer);;
  module ← lift (import_module module_path);
  class_ ← lift (module class_attr);
  lift class_.

(** Line 52. *)
Definition notification_timer_callback (handler : Handler) (timer : Timer)
  : M CallbackResults :=
  emit (EvCallback timer);;
  lift (handler timer).

(** Lines 56-70: what the [try] block assigns to the timer once the
    handler has returned [res], when the date of line 67 is in range
    ([apply_results_checked] is the same with the range of the dates). *)
Definition apply_results (timer : Timer) (res : CallbackResults) : Timer :=
  let timer := set_results (Some res) timer in
  if negb (truthy_errors (errors res)) then
    (* successful, see if we should reschedule *)
    let rerun_delta := reschedule_in_mins res in
    let rerun_delta :=
      if truthy_int rerun_delta then rerun_delta else periodicity_min timer in
    match rerun_delta with
    | Some delta =>
        if negb (delta =? 0) then
          let min_delta :=
            NOTIFICATION_MINIMUM_PERIODICITY_MINS min_periodicity_setting in
          let delta := if min_delta <=? delta then delta else min_delta in
          let timer :=
            set_callback_at (callback_at timer + timedelta_minutes delta) timer in
          set_executed_at None timer
        else timer
    | None => timer
    end
  else set_err_msg (Some (str_errors (errors res))) timer.

(** Lines 40-79: the body of the loop, for one timer of the list. The
    [except] branch sees the timer as it is when the exception is raised:
    resolution and the callback are the only steps of the [try] block
    that raise, and they come before its assignments. *)
Definition execute_timer (timer : Timer) : M unit :=
  now ← datetime_now;
  let timer := set_executed_at (Some now) timer in
  save_notification_timer timer;;
  try_except
    (handler ← resolve_handler timer;
     res ← notification_timer_callback handler timer;
     save_notification_timer (apply_results timer res))
    (fun ex =>
       let timer := set_is_active false (set_err_msg (Some (str_exn ex)) timer) in
       save_notification_timer timer;;
       emit (EvLogException ex)).

(** Lines 27-81. *)
Definition poll_and_execute_timers : M unit :=
  timers_not_executed ← get_all_active_timers;
  for_each timers_not_executed execute_timer.

(** Lines 85-107. *)
Definition register_purge_notifications_timer : M unit :=
  now ← datetime_now;
  let first_execution_at := now + timedelta_days 1 in
  let first_execution_at := replace_time first_execution_at 1 0 0 0 in
  try_except_not_found
    (get_notification_timer PURGE_TIMER_NAME;; mret tt)
    (let purge_notifications_timer :=
       mkTimer PURGE_TIMER_NAME first_execution_at PURGE_HANDLER_CLASS
               None true (Some MINUTES_IN_A_DAY) None None None in
     save_notification_timer purge_notifications_timer).

(** *** Vocabulary of the statements *)

(** The primary key of the timer table: a row is stored under its name. *)
Definition store_wf (s : gmap string Timer) : Prop :=
  map_Forall (fun k t => name t = k) s.

(** The timers a scan pass started in [w] iterates over, in order. *)
Definition selected (w : World) : list Timer :=
  filter (fun t => eligible (clock (ticks w)) t = true)
         (map_to_list (store w)).*2.

(** The clock reading that marks the [i]-th timer of the pass in flight:
    the store query reads the clock once, then each timer once. *)
Definition mark_time (w : World) (i : nat) : datetime :=
  clock (S (ticks w) + i).

(** The timer as it is saved and handed to the handler. *)
Definition in_flight (now : datetime) (t : Timer) : Timer :=
  set_executed_at (Some now) t.

(** What resolving the handler of [t] gives, and what resolving and then
    calling it gives: an exception or a value. *)
Definition resolve_outcome (t : Timer) : exn + Handler :=
  let '(module_path, _, class_attr) := rpartition_dot (class_name t) in
  match import_module module_path with
  | inl ex => inl ex
  | inr module =>
      match module class_attr with
      | inl ex => inl ex
      | inr class_ => class_
      end
  end.

Definition handler_outcome (t : Timer) : exn + CallbackResults :=
  match resolve_outcome t with
  | inl ex => inl ex
  | inr handler => handler t
  end.

(** The timer as the [except] branch saves it. *)
Definition failed (ex : exn) (t : Timer) : Timer :=
  set_is_active false (set_err_msg (Some (str_exn ex)) t).

(** The row a timer marked at [now] ends the loop body with. *)
Definition final_timer (now : datetime) (t : Timer) : Timer :=
  match handler_outcome (in_flight now t) with
  | inl ex => failed ex (in_flight now t)
  | inr res => apply_results (in_flight now t) res
  end.

(** The events of the loop body for a timer marked at [now], and of a
    loop over [ts] whose first timer reads the clock for the [k]-th time. *)
Definition timer_events (now : datetime) (t : Timer) : list Event :=
  let t1 := in_flight now t in
  EvSave t1 :: EvResolve t1 ::
    match resolve_outcome t1 with
    | inl ex => [EvSave (failed ex t1); EvLogException ex]
    | inr handler =>
        EvCallback t1 ::
          match handler t1 with
          | inl ex => [EvSave (failed ex t1); EvLogException ex]
          | inr res => [EvSave (apply_results t1 res)]
          end
    end.

Fixpoint pass_events (k : nat) (ts : list Timer) : list Event :=
  match ts with
  | [] => []
  | t :: ts' => timer_events (clock k) t ++ pass_events (S k) ts'
  end.

(** The store after a loop over [ts] whose first timer reads the clock for
    the [k]-th time. *)
Fixpoint pass_store (k : nat) (ts : list Timer) (s : gmap string Timer)
  : gmap string Timer :=
  match ts with
  | [] => s
  | t :: ts' => pass_store (S k) ts' (<[name t := final_timer (clock k) t]> s)
  end.

(** The row the registrar creates when it reads the clock at [now]. *)
Definition purge_timer (now : datetime) : Timer :=
  mkTimer PURGE_TIMER_NAME (replace_time (now + timedelta_days 1) 1 0 0 0)
          PURGE_HANDLER_CLASS None true (Some MINUTES_IN_A_DAY) None None None.

(** The engine's operations, and runs of several of them in a row. *)
Inductive engine_op : Type := Scan | Register.

Definition run_op (op : engine_op) : M unit :=
  match op with
  | Scan => poll_and_execute_timers
  | Register => register_purge_notifications_timer
  end.


(** The events a run adds to the log of [w]. *)
Definition new_events (w w' : World) : list Event :=
  drop (length (log w)) (log w').

(** The interval of lines 60-61: the one the payload asks for, when it is
    truthy, and the periodicity of the timer otherwise. *)
Definition requested_interval (t : Timer) (res : CallbackResults) : option Z :=
  if truthy_int (reschedule_in_mins res)
  then reschedule_in_mins res else periodicity_min t.



(** *** The engine with checked dates and exception texts

    The definitions above follow timer.py under two conventions: every
    exception has a text, and adding an interval to a date gives a date.
    The definitions below lift both: [str(ex)] may raise in its turn (line
    75 is inside the [except] clause, so that exception leaves the loop
    and the function), and line 67 raises [OverflowError] when the new
    date is out of the range of [datetime]. *)

(** [str_failure ex]: the exception that [str(ex)] raises, when it does
    (a unicode message under Python 2, a [__str__] that raises). *)
Variable str_failure : exn -> option exn.

(** [overflow_error at delta]: the [OverflowError] that
    [at + timedelta(minutes=delta)] raises when it is out of range; its
    text depends on which of [timedelta] and the addition refuses. *)
Variable overflow_error : datetime -> Z -> exn.

(** The dates of [datetime], from 0001-01-01 00:00:00 (the origin) to
    9999-12-31 23:59:59.999999. *)
Definition MAX_DATETIME : Z := 3652059 * USEC_PER_DAY.

Definition representable (t : Z) : bool := (0 <=? t) && (t <? MAX_DATETIME).

(** [at + timedelta(minutes=delta)], line 67. An out-of-range [timedelta]
    also puts the sum out of range. *)
Definition add_minutes (at_ : datetime) (delta : Z) : exn + datetime :=
  if representable (at_ + timedelta_minutes delta)
  then inr (at_ + timedelta_minutes delta)
  else inl (overflow_error at_ delta).

(** [str(ex)], line 75. *)
Definition py_str (ex : exn) : M string :=
  match str_failure ex with
  | Some ex' => raise ex'
  | None => mret (str_exn ex)
  end.

(** The outcome of an action as a value: what a [try] statement sees. *)
Definition catch {A} (m : M A) : M (exn + A) :=
  fun w =>
    match m w with
    | (Ok a, w') => (Ok (inr a), w')
    | (Raise ex, w') => (Ok (inl ex), w')
    end.

(** Lines 56-70: the timer as the assignments leave it, and the exception
    that line 67 raises, if it does. *)
Definition apply_results_checked (timer : Timer) (res : CallbackResults)
  : Timer * option exn :=
  let timer := set_results (Some res) timer in
  if negb (truthy_errors (errors res)) then
    (* successful, see if we should reschedule *)
    let rerun_delta := reschedule_in_mins res in
    let rerun_delta :=
      if truthy_int rerun_delta then rerun_delta else periodicity_min timer in
    match rerun_delta with
    | Some delta =>
        if negb (delta =? 0) then
          let min_delta :=
            NOTIFICATION_MINIMUM_PERIODICITY_MINS min_periodicity_setting in
          let delta := if min_delta <=? delta then delta else min_delta in
          match add_minutes (callback_at timer) delta with
          | inl ex => (timer, Some ex)
          | inr new_callback_at =>
              (set_executed_at None (set_callback_at new_callback_at timer),
               None)
          end
        else (timer, None)
    | None => (timer, None)
    end
  else (set_err_msg (Some (str_errors (errors res))) timer, None).

(** Lines 42-43: mark the timer in flight and save it. *)
Definition mark_in_flight (timer : Timer) : M Timer :=
  now ← datetime_now;
  let timer := set_executed_at (Some now) timer in
  save_notification_timer timer;;
  mret timer.

(** Lines 46-72, the [try] block: the timer as the block leaves it, and the
    exception that leaves the block, if any. The timer is saved at line 72
    only when no exception does. *)
Definition try_block (timer : Timer) : M (Timer * option exn) :=
  called ← catch (handler ← resolve_handler timer;
                  notification_timer_callback handler timer);
  match called with
  | inl ex => mret (timer, Some ex)
  | inr res =>
      match apply_results_checked timer res with
      | (timer, Some ex) => mret (timer, Some ex)
      | (timer, None) => save_notification_timer timer;; mret (timer, None)
      end
  end.

(** Lines 73-79, the [except] clause. When [str(ex)] raises, nothing of
    the clause is done. *)
Definition except_clause (timer : Timer) (ex : exn) : M unit :=
  msg ← py_str ex;
  let timer := set_err_msg (Some msg) timer in
  let timer := set_is_active false timer in
  save_notification_timer timer;;
  emit (EvLogException ex).

(** Lines 45-79: the [try] statement, for a timer in flight. *)
Definition settle (timer : Timer) : M unit :=
  left_ ← try_block timer;
  match left_ with
  | (timer, Some ex) => except_clause timer ex
  | (_, None) => mret tt
  end.

(** Lines 40-79: the body of the loop. *)
Definition execute_timer_checked (timer : Timer) : M unit :=
  timer ← mark_in_flight timer;
  settle timer.

(** Lines 27-81. *)
Definition poll_and_execute_timers_checked : M unit :=
  timers_not_executed ← get_all_active_timers;
  for_each timers_not_executed execute_timer_checked.

Definition run_op_checked (op : engine_op) : M unit :=
  match op with
  | Scan => poll_and_execute_timers_checked
  | Register => register_purge_notifications_timer
  end.

Definition run_ops_checked (ops : list engine_op) : M unit :=
  for_each ops run_op_checked.

(** *** Vocabulary of the statements on the checked engine *)

(** For a timer in flight: the timer as the [try] block leaves it, with the
    exception that leaves the block, if any. *)
Definition try_outcome (t1 : Timer) : Timer * option exn :=
  match handler_outcome t1 with
  | inl ex => (t1, Some ex)
  | inr res => apply_results_checked t1 res
  end.

(** The exception that leaves the loop body of a timer in flight, if any:
    the one [str] raises in the [except] clause. *)
Definition aborts (t1 : Timer) : option exn :=
  match try_outcome t1 with
  | (_, Some ex) => str_failure ex
  | (_, None) => None
  end.

(** The row the loop body leaves for a timer in flight; when the [except]
    clause fails, it is the row saved with the mark. *)
Definition final_checked (t1 : Timer) : Timer :=
  match try_outcome t1 with
  | (tm, Some ex) =>
      match str_failure ex with
      | None => failed ex tm
      | Some _ => t1
      end
  | (tm, None) => tm
  end.

(** The events of the [try] statement for a timer in flight. *)
Definition except_events (tm : Timer) (ex : exn) : list Event :=
  match str_failure ex with
  | None => [EvSave (failed ex tm); EvLogException ex]
  | Some _ => []
  end.

Definition settle_events (t1 : Timer) : list Event :=
  EvResolve t1 ::
    match resolve_outcome t1 with
    | inl ex => except_events t1 ex
    | inr handler =>
        EvCallback t1 ::
          match handler t1 with
          | inl ex => except_events t1 ex
          | inr res =>
              match apply_results_checked t1 res with
              | (tm, Some ex) => except_events tm ex
              | (tm, None) => [EvSave tm]
              end
          end
    end.

(** No timer of [ts] aborts the loop, the first one reading the clock for
    the [k]-th time. *)
Fixpoint none_aborts (k : nat) (ts : list Timer) : bool :=
  match ts with
  | [] => true
  | t :: ts' =>
      match aborts (in_flight (clock k) t) with
      | Some _ => false
      | None => none_aborts (S k) ts'
      end
  end.

(** The pass started in [w] reaches its [i]-th timer: no earlier timer of
    the pass aborts it. *)
Definition reached (w : World) (i : nat) : Prop :=
  none_aborts (S (ticks w)) (take i (selected w)) = true.

(** The store and the events after a loop over [ts] that no timer aborts. *)
Fixpoint pass_store_checked (k : nat) (ts : list Timer) (s : gmap string Timer)
  : gmap string Timer :=
  match ts with
  | [] => s
  | t :: ts' =>
      pass_store_checked (S k) ts'
        (<[name t := final_checked (in_flight (clock k) t)]> s)
  end.

Fixpoint pass_events_checked (k : nat) (ts : list Timer) : list Event :=
  match ts with
  | [] => []
  | t :: ts' =>
      (EvSave (in_flight (clock k) t) :: settle_events (in_flight (clock k) t))
        ++ pass_events_checked (S k) ts'
  end.

Abbreviation floor := (NOTIFICATION_MINIMUM_PERIODICITY_MINS min_periodicity_setting).

(** ** Properties *)

Local Open Scope list_scope.

Ltac run_monad :=
  unfold mbind, M_bind, mret, M_ret, bind, ret, raise, lift, emit,
    try_except_not_found, try_except in *; simpl in *.

(** *** The loop body *)

Lemma name_apply_results t res :
  name (apply_results t res) = name t.
Proof.
  unfold apply_results.
  destruct (negb (truthy_errors (errors res))); [|reflexivity].
  destruct (if truthy_int _ then _ else _) as [d|]; [|reflexivity].
  destruct (negb (d =? 0)); reflexivity.
Qed.

Lemma name_final_timer now t : name (final_timer now t) = name t.
Proof.
  unfold final_timer. destruct (handler_outcome _); [reflexivity|].
  rewrite name_apply_results. reflexivity.
Qed.

(** The loop body never raises; it reads the clock once, leaves the final
    row of the timer in the store and adds the timer's events. *)
Lemma execute_timer_run t w :
  execute_timer t w =
    (Ok tt, mkWorld (<[name t := final_timer (clock (ticks w)) t]> (store w))
                    (S (ticks w))
                    (log w ++ timer_events (clock (ticks w)) t)).
Proof.
  unfold execute_timer, final_timer, timer_events, handler_outcome,
    resolve_outcome, resolve_handler, notification_timer_callback,
    save_notification_timer, datetime_now.
  run_monad.
  set (t1 := in_flight (clock (ticks w)) t).
  change (set_executed_at (Some (clock (ticks w))) t) with t1.
  destruct (rpartition_dot (class_name t)) as [[module_path sep] class_attr].
  destruct (import_module module_path) as [ex|module]; simpl.
  { rewrite insert_insert_eq, <- !app_assoc. reflexivity. }
  destruct (module class_attr) as [ex|[ex|handler]]; simpl.
  { rewrite insert_insert_eq, <- !app_assoc. reflexivity. }
  { rewrite insert_insert_eq, <- !app_assoc. reflexivity. }
  destruct (handler t1) as [ex|res]; simpl.
  { rewrite insert_insert_eq, <- !app_assoc. reflexivity. }
  rewrite name_apply_results. simpl.
  rewrite insert_insert_eq, <- !app_assoc. reflexivity.
Qed.

(** *** The loop and the scan pass *)

Lemma for_each_execute_run ts w :
  for_each ts execute_timer w =
    (Ok tt, mkWorld (pass_store (ticks w) ts (store w))
                    (ticks w + length ts)
                    (log w ++ pass_events (ticks w) ts)).
Proof.
  revert w. induction ts as [|t ts IH]; intros w; simpl.
  - destruct w as [s k l]; simpl.
    rewrite Nat.add_0_r, app_nil_r. reflexivity.
  - unfold mbind, M_bind, bind. rewrite execute_timer_run, IH.
    cbn [store ticks log]. rewrite <- app_assoc. do 2 f_equal. lia.
Qed.

Lemma poll_run w :
  poll_and_execute_timers w =
    (Ok tt, mkWorld (pass_store (S (ticks w)) (selected w) (store w))
                    (S (ticks w) + length (selected w))
                    (log w ++ pass_events (S (ticks w)) (selected w))).
Proof.
  unfold poll_and_execute_timers, get_all_active_timers, datetime_now,
    read_store.
  run_monad. rewrite for_each_execute_run. reflexivity.
Qed.

Lemma pass_store_other k ts s n :
  n ∉ name <$> ts -> pass_store k ts s !! n = s !! n.
Proof.
  revert k s. induction ts as [|t ts IH]; intros k s Hn; simpl; [reflexivity|].
  rewrite fmap_cons, not_elem_of_cons in Hn. destruct Hn as [Hne Hn].
  rewrite IH by assumption. apply lookup_insert_ne. congruence.
Qed.


Lemma pass_store_wf k ts s : store_wf s -> store_wf (pass_store k ts s).
Proof.
  revert k s. induction ts as [|t ts IH]; intros k s Hwf; simpl; [assumption|].
  apply IH. intros n u. rewrite lookup_insert.
  destruct (decide (name t = n)) as [<-|]; [|apply Hwf].
  intros [= <-]. apply name_final_timer.
Qed.

(** *** The timers a pass selects *)

Lemma names_of_rows (s : gmap string Timer) :
  store_wf s -> name <$> (map_to_list s).*2 = (map_to_list s).*1.
Proof.
  intros Hwf.
  assert (Forall (fun kt => name kt.2 = kt.1) (map_to_list s)) as Hall.
  { apply Forall_forall. intros [n t] Hin. apply elem_of_map_to_list in Hin.
    apply Hwf. assumption. }
  induction Hall as [|[n t] l Hnt _ IH]; [reflexivity|].
  rewrite !fmap_cons, IH. simpl in *. congruence.
Qed.

Lemma elem_of_selected w t :
  store_wf (store w) ->
  t ∈ selected w <->
  store w !! name t = Some t /\ eligible (clock (ticks w)) t = true.
Proof.
  intros Hwf. unfold selected. rewrite list_elem_of_filter, list_elem_of_fmap.
  split.
  - intros [He [[n u] [-> Hin]]]. apply elem_of_map_to_list in Hin. simpl in *.
    rewrite (Hwf _ _ Hin). auto.
  - intros [Hs He]. split; [assumption|].
    exists (name t, t). split; [reflexivity|].
    apply elem_of_map_to_list. assumption.
Qed.

Lemma NoDup_selected w : store_wf (store w) -> NoDup (name <$> selected w).
Proof.
  intros Hwf. unfold selected.
  apply (sublist_NoDup _ (name <$> (map_to_list (store w)).*2)).
  - rewrite names_of_rows by assumption. apply NoDup_fst_map_to_list.
  - apply fmap_sublist, sublist_filter.
Qed.


(** *** What the [try] block assigns *)

Lemma floored_max d : (if floor <=? d then d else floor) = Z.max d floor.
Proof. destruct (Z.leb_spec floor d); lia. Qed.

(** A successful run with interval [d], from whichever source. *)
Lemma apply_results_reschedule t res d :
  truthy_errors (errors res) = false ->
  (if truthy_int (reschedule_in_mins res)
   then reschedule_in_mins res else periodicity_min t) = Some d ->
  d <> 0 ->
  apply_results t res =
    set_executed_at None
      (set_callback_at (callback_at t + timedelta_minutes (Z.max d floor))
         (set_results (Some res) t)).
Proof.
  intros He Hd Hnz. unfold apply_results. rewrite He. cbn [negb].
  cbn [periodicity_min set_results]. rewrite Hd.
  destruct (Z.eqb_spec d 0) as [|_]; [contradiction|]. cbn [negb].
  rewrite floored_max. reflexivity.
Qed.

(** A successful run without interval. *)
Lemma apply_results_one_shot t res :
  truthy_errors (errors res) = false ->
  truthy_int (if truthy_int (reschedule_in_mins res)
              then reschedule_in_mins res else periodicity_min t) = false ->
  apply_results t res = set_results (Some res) t.
Proof.
  intros He Hd. unfold apply_results. rewrite He. cbn [negb].
  cbn [periodicity_min set_results].
  destruct (if truthy_int _ then _ else _) as [d|]; [|reflexivity].
  simpl in Hd. rewrite Hd. reflexivity.
Qed.

(** A run whose payload reports errors. *)
Lemma apply_results_errors t res :
  truthy_errors (errors res) = true ->
  apply_results t res =
    set_err_msg (Some (str_errors (errors res))) (set_results (Some res) t).
Proof. intros He. unfold apply_results. rewrite He. reflexivity. Qed.

(** *** Rows a pass leaves alone *)

Lemma eligible_inactive now t : is_active t = false -> eligible now t = false.
Proof. intros H. unfold eligible. rewrite H. reflexivity. Qed.


Lemma not_selected w n t :
  store_wf (store w) -> store w !! n = Some t ->
  eligible (clock (ticks w)) t = false ->
  forall u, u ∈ selected w -> name u <> n.
Proof.
  intros Hwf Hn He u Hu <-. apply elem_of_selected in Hu as [Hs Hu]; [|assumption].
  congruence.
Qed.

Lemma poll_frame w n :
  (forall u, u ∈ selected w -> name u <> n) ->
  exists w',
    poll_and_execute_timers w = (Ok tt, w') /\ store w' !! n = store w !! n.
Proof.
  intros Hn. eexists. split; [apply poll_run|]. cbn [store].
  apply pass_store_other. intros Hin.
  apply list_elem_of_fmap in Hin as (u & -> & Hu). exact (Hn u Hu eq_refl).
Qed.

(** *** The registrar *)

Lemma register_run w :
  register_purge_notifications_timer w =
    (Ok tt,
     match store w !! PURGE_TIMER_NAME with
     | Some _ => mkWorld (store w) (S (ticks w)) (log w)
     | None =>
         mkWorld (<[PURGE_TIMER_NAME := purge_timer (clock (ticks w))]> (store w))
                 (S (ticks w))
                 (log w ++ [EvSave (purge_timer (clock (ticks w)))])
     end).
Proof.
  unfold register_purge_notifications_timer, get_notification_timer,
    save_notification_timer, datetime_now, read_store.
  run_monad. destruct (store w !! PURGE_TIMER_NAME); reflexivity.
Qed.

Lemma register_frame w n t :
  store w !! n = Some t ->
  exists w',
    register_purge_notifications_timer w = (Ok tt, w') /\
    store w' !! n = Some t.
Proof.
  intros Hn. eexists. split; [apply register_run|].
  destruct (store w !! PURGE_TIMER_NAME) eqn:Hp; cbn [store]; [assumption|].
  rewrite lookup_insert_ne; [assumption|congruence].
Qed.

Lemma register_wf w w' :
  store_wf (store w) ->
  register_purge_notifications_timer w = (Ok tt, w') ->
  store_wf (store w').
Proof.
  intros Hwf. rewrite register_run. intros [= <-].
  destruct (store w !! PURGE_TIMER_NAME); cbn [store]; [assumption|].
  intros n u. rewrite lookup_insert.
  destruct (decide (PURGE_TIMER_NAME = n)) as [<-|]; [|apply Hwf].
  intros [= <-]. reflexivity.
Qed.

(** *** Runs of several operations *)

(** No operation raises, the primary key is kept, and a row that is
    inactive stays as it is. *)
Lemma run_op_inactive op w :
  store_wf (store w) ->
  exists w',
    run_op op w = (Ok tt, w') /\ store_wf (store w') /\
    forall n t, store w !! n = Some t -> is_active t = false ->
                store w' !! n = Some t.
Proof.
  intros Hwf. destruct op; simpl.
  - eexists. split; [apply poll_run|]. cbn [store].
    split; [apply pass_store_wf; assumption|].
    intros n t Hn Ht.
    destruct (poll_frame w n) as (w' & Hrun & Hrow).
    { eapply not_selected; eauto using eligible_inactive. }
    rewrite poll_run in Hrun. injection Hrun as <-. cbn [store] in Hrow.
    congruence.
  - destruct (register_purge_notifications_timer w) as [r w'] eqn:Hrun.
    pose proof (register_run w) as Hr. rewrite Hrun in Hr.
    injection Hr as -> Hw'. exists w'. split; [reflexivity|].
    split; [eapply register_wf; eassumption|].
    intros n t Hn _. destruct (register_frame w n t Hn) as (w2 & Hrun2 & Hrow).
    congruence.
Qed.


(** *** The events of a pass *)


Lemma timer_events_shape now t :
  exists rest,
    timer_events now t
      = EvSave (in_flight now t) :: EvResolve (in_flight now t) :: rest /\
    forall handler,
      resolve_outcome (in_flight now t) = inr handler ->
      EvCallback (in_flight now t) ∈ rest.
Proof.
  unfold timer_events. eexists. split; [reflexivity|].
  intros handler ->. apply list_elem_of_here.
Qed.




Lemma name_not_before ts i t :
  NoDup (name <$> ts) -> ts !! i = Some t -> name t ∉ name <$> take i ts.
Proof.
  intros Hnd Hi Hin. apply list_elem_of_lookup in Hin as [j Hj].
  rewrite fmap_take in Hj.
  pose proof (lookup_lt_Some _ _ _ Hj) as Hlt. rewrite length_take in Hlt.
  rewrite lookup_take_lt in Hj by lia.
  assert ((name <$> ts) !! i = Some (name t)) as Hi'
    by (rewrite list_lookup_fmap, Hi; reflexivity).
  pose proof (NoDup_lookup _ _ _ _ Hnd Hi' Hj). lia.
Qed.

Lemma err_msg_apply_results_ok t res :
  truthy_errors (errors res) = false ->
  err_msg (apply_results t res) = err_msg t.
Proof.
  intros He. unfold apply_results. rewrite He. cbn [negb].
  destruct (if truthy_int _ then _ else _) as [d|]; [|reflexivity].
  destruct (negb (d =? 0)); reflexivity.
Qed.

(** *** Rescheduling after a successful run *)


Lemma selected_active w t : t ∈ selected w -> is_active t = true.
Proof.
  unfold selected. rewrite list_elem_of_filter. intros [He _].
  unfold eligible in He. apply andb_true_iff in He as [He _].
  apply andb_true_iff in He as [He _]. exact He.
Qed.

(** *** Failures *)


(** *** The registrar *)

Lemma time_of_day_replace_time t :
  time_of_day (replace_time t 1 0 0 0) = 1 * USEC_PER_HOUR.
Proof.
  unfold time_of_day, replace_time. symmetry.
  apply Z.mod_unique_pos with (q := date_of t).
  - unfold USEC_PER_DAY, USEC_PER_HOUR, USEC_PER_MINUTE, USEC_PER_SECOND. lia.
  - lia.
Qed.

Lemma date_of_replace_time t : date_of (replace_time t 1 0 0 0) = date_of t.
Proof.
  unfold replace_time. unfold date_of at 1. symmetry.
  apply Z.div_unique_pos with (r := 1 * USEC_PER_HOUR).
  - unfold USEC_PER_DAY, USEC_PER_HOUR, USEC_PER_MINUTE, USEC_PER_SECOND. lia.
  - lia.
Qed.

Lemma date_of_next_day t : date_of (t + timedelta_days 1) = date_of t + 1.
Proof.
  unfold date_of, timedelta_days. apply Z.div_add. discriminate.
Qed.

Lemma replace_time_next_day_later t :
  t < replace_time (t + timedelta_days 1) 1 0 0 0.
Proof.
  unfold replace_time. rewrite date_of_next_day. unfold date_of.
  pose proof (Z.div_mod t USEC_PER_DAY) as Hdm.
  pose proof (Z.mod_pos_bound t USEC_PER_DAY) as Hb.
  unfold USEC_PER_DAY, USEC_PER_HOUR, USEC_PER_MINUTE, USEC_PER_SECOND in *.
  lia.
Qed.

(** C7: from a store without any timer, two registrations in a row leave
    exactly one row, named 'purge-notifications-timer': the first one saves
    it, and the second one saves nothing and leaves the store as it is. *)
Theorem register_twice_creates_one w :
  store w = ∅ ->
  exists w1 w2 t,
    register_purge_notifications_timer w = (Ok tt, w1) /\
    register_purge_notifications_timer w1 = (Ok tt, w2) /\
    name t = PURGE_TIMER_NAME /\
    store w1 = {[ PURGE_TIMER_NAME := t ]} /\
    new_events w w1 = [EvSave t] /\
    store w2 = store w1 /\
    new_events w1 w2 = [] /\
    size (store w2) = 1%nat.
Proof.
  intros Hempty.
  pose proof (register_run w) as Hrun1.
  rewrite Hempty, lookup_empty in Hrun1.
  set (t := purge_timer (clock (ticks w))) in *.
  set (w1 := mkWorld (<[PURGE_TIMER_NAME := t]> ∅) (S (ticks w))
                     (log w ++ [EvSave t])) in *.
  pose proof (register_run w1) as Hrun2.
  assert (store w1 !! PURGE_TIMER_NAME = Some t) as Hfound
    by apply lookup_insert_eq.
  rewrite Hfound in Hrun2.
  exists w1, (mkWorld (store w1) (S (ticks w1)) (log w1)), t.
  split; [exact Hrun1|]. split; [exact Hrun2|].
  split; [reflexivity|]. split; [reflexivity|].
  split; [apply drop_app_length|]. split; [reflexivity|].
  split; [apply drop_all|]. apply map_size_singleton.
Qed.

(** C10: when the registrar finds no purge timer, the row it creates is
    named 'purge-notifications-timer', is active, has a periodicity of 1440
    minutes, and is first due strictly after the time of creation, at
    01:00:00 UTC of the day after the day of creation. *)
Theorem purge_timer_created w :
  store w !! PURGE_TIMER_NAME = None ->
  exists w' t,
    register_purge_notifications_timer w = (Ok tt, w') /\
    store w' !! PURGE_TIMER_NAME = Some t /\
    name t = "purge-notifications-timer" /\
    is_active t = true /\
    periodicity_min t = Some 1440 /\
    clock (ticks w) < callback_at t /\
    time_of_day (callback_at t) = 1 * USEC_PER_HOUR /\
    date_of (callback_at t) = date_of (clock (ticks w)) + 1.
Proof.
  intros Habsent. pose proof (register_run w) as Hrun. rewrite Habsent in Hrun.
  eexists _, (purge_timer (clock (ticks w))).
  split; [exact Hrun|]. split; [apply lookup_insert_eq|].
  do 3 (split; [reflexivity|]). cbn [callback_at purge_timer].
  split; [apply replace_time_next_day_later|].
  split; [apply time_of_day_replace_time|].
  rewrite date_of_replace_time. apply date_of_next_day.
Qed.


(** ** Further properties of the scan pass *)






(** *** Rows and fields a pass leaves alone *)



(** X7: when no row is eligible (the table is empty, or every timer is
    inactive, not yet due or in flight), a scan pass reads the clock once
    for its query, changes no row and records no event. *)
Theorem nothing_eligible_nothing_done w :
  (forall n t, store w !! n = Some t -> eligible (clock (ticks w)) t = false) ->
  poll_and_execute_timers w
    = (Ok tt, mkWorld (store w) (S (ticks w)) (log w)).
Proof.
  intros Hnone. rewrite poll_run.
  assert (selected w = []) as ->.
  { destruct (selected w) as [|u l] eqn:Hsel; [reflexivity|].
    assert (u ∈ selected w) as Hu by (rewrite Hsel; apply list_elem_of_here).
    unfold selected in Hu. apply list_elem_of_filter in Hu as [He Hu].
    apply list_elem_of_fmap in Hu as ([n t] & -> & Hin).
    apply elem_of_map_to_list in Hin. simpl in He.
    rewrite (Hnone n t Hin) in He. discriminate. }
  simpl. rewrite Nat.add_0_r, app_nil_r. reflexivity.
Qed.

(** *** How often a handler is called *)




Lemma name_not_after ts i t :
  NoDup (name <$> ts) -> ts !! i = Some t -> name t ∉ name <$> drop (S i) ts.
Proof.
  intros Hnd Hi Hin. apply list_elem_of_lookup in Hin as [j Hj].
  rewrite fmap_drop, lookup_drop in Hj.
  assert ((name <$> ts) !! i = Some (name t)) as Hi'
    by (rewrite list_lookup_fmap, Hi; reflexivity).
  pose proof (NoDup_lookup _ _ _ _ Hnd Hi' Hj). lia.
Qed.


(** *** Periodic timers *)




(** ** Further properties of the registrar *)

(** X13: when a row named 'purge-notifications-timer' exists, in whatever
    state (rescheduled, in flight or deactivated), a registration saves
    nothing and leaves the whole table as it is. *)
Theorem registration_leaves_existing_timer w t :
  store w !! PURGE_TIMER_NAME = Some t ->
  exists w',
    register_purge_notifications_timer w = (Ok tt, w') /\
    store w' = store w /\
    new_events w w' = [].
Proof.
  intros Hfound. pose proof (register_run w) as Hrun. rewrite Hfound in Hrun.
  eexists. split; [exact Hrun|]. split; [reflexivity|]. apply drop_all.
Qed.

(** X14: a registration never raises and never touches a row of another
    name; the names of the table afterwards are the names before, with
    'purge-notifications-timer'. *)
Theorem registration_touches_one_name w :
  exists w',
    register_purge_notifications_timer w = (Ok tt, w') /\
    dom (store w') = {[ PURGE_TIMER_NAME ]} ∪ dom (store w) /\
    forall n, n <> PURGE_TIMER_NAME -> store w' !! n = store w !! n.
Proof.
  eexists. split; [apply register_run|].
  destruct (store w !! PURGE_TIMER_NAME) as [t|] eqn:Hp; cbn [store].
  - split; [|reflexivity].
    apply elem_of_dom_2 in Hp. symmetry.
    apply subseteq_union_1_L, singleton_subseteq_l. exact Hp.
  - split; [apply dom_insert_L|].
    intros n Hn. apply lookup_insert_ne. congruence.
Qed.

(** X15: the first execution of a purge timer created at [now] is more
    than one hour and at most twenty-five hours after [now]: the hour 01:00
    of the day after, also when [now] is before 01:00 of its own day. *)
Theorem purge_timer_first_execution_window w :
  store w !! PURGE_TIMER_NAME = None ->
  exists w' t,
    register_purge_notifications_timer w = (Ok tt, w') /\
    store w' !! PURGE_TIMER_NAME = Some t /\
    clock (ticks w) + 1 * USEC_PER_HOUR < callback_at t /\
    callback_at t <= clock (ticks w) + 25 * USEC_PER_HOUR /\
    executed_at t = None /\
    eligible (clock (ticks w)) t = false.
Proof.
  intros Habsent. pose proof (register_run w) as Hrun. rewrite Habsent in Hrun.
  eexists _, (purge_timer (clock (ticks w))).
  split; [exact Hrun|]. split; [apply lookup_insert_eq|].
  assert (clock (ticks w) + 1 * USEC_PER_HOUR
            < callback_at (purge_timer (clock (ticks w)))
          /\ callback_at (purge_timer (clock (ticks w)))
               <= clock (ticks w) + 25 * USEC_PER_HOUR) as [Hlo Hhi].
  { cbn [callback_at purge_timer]. unfold replace_time.
    rewrite date_of_next_day. unfold date_of.
    pose proof (Z.div_mod (clock (ticks w)) USEC_PER_DAY) as Hdm.
    pose proof (Z.mod_pos_bound (clock (ticks w)) USEC_PER_DAY) as Hb.
    unfold USEC_PER_DAY, USEC_PER_HOUR, USEC_PER_MINUTE, USEC_PER_SECOND in *.
    lia. }
  split; [exact Hlo|]. split; [exact Hhi|]. split; [reflexivity|].
  unfold eligible. cbn [is_active].
  assert ((callback_at (purge_timer (clock (ticks w))) <=? clock (ticks w))
          = false) as ->.
  { apply Z.leb_gt. unfold USEC_PER_HOUR, USEC_PER_MINUTE, USEC_PER_SECOND in Hlo.
    lia. }
  reflexivity.
Qed.

(** ** Which module and which class the engine asks for *)

Lemma rsplit_dot_dotless s : PyStr.contains "." s = false -> rsplit_dot s = None.
Proof.
  induction s as [|c s IH]; [reflexivity|].
  cbn [PyStr.contains rsplit_dot].
  destruct (Ascii.eqb_spec "." c) as [<-|Hne]; [discriminate|].
  intros Hs. rewrite (IH Hs).
  destruct (Ascii.eqb_spec c "."); [congruence|reflexivity].
Qed.

Lemma rsplit_dot_last m c :
  PyStr.contains "." c = false ->
  rsplit_dot (m ++ String "." c)%string = Some (m, c).
Proof.
  intros Hc. induction m as [|a m IH].
  - change (rsplit_dot (String "." c) = Some (EmptyString, c)).
    cbn [rsplit_dot]. rewrite (rsplit_dot_dotless c Hc). reflexivity.
  - change (rsplit_dot (String a (m ++ String "." c)) = Some (String a m, c)).
    cbn [rsplit_dot]. rewrite IH. reflexivity.
Qed.


(** ** The checked engine *)

(** *** The loop body *)

Lemma apply_results_checked_cases t res :
  (truthy_errors (errors res) = true /\
   apply_results_checked t res
   = (set_err_msg (Some (str_errors (errors res))) (set_results (Some res) t),
      None))
  \/ (truthy_errors (errors res) = false /\
      exists d, requested_interval t res = Some d /\ d <> 0 /\
        representable (callback_at t + timedelta_minutes (Z.max d floor)) = true /\
        apply_results_checked t res
        = (set_executed_at None
             (set_callback_at (callback_at t + timedelta_minutes (Z.max d floor))
                (set_results (Some res) t)),
           None))
  \/ (truthy_errors (errors res) = false /\
      exists d, requested_interval t res = Some d /\ d <> 0 /\
        representable (callback_at t + timedelta_minutes (Z.max d floor)) = false /\
        apply_results_checked t res
        = (set_results (Some res) t,
           Some (overflow_error (callback_at t) (Z.max d floor))))
  \/ (truthy_errors (errors res) = false /\
      truthy_int (requested_interval t res) = false /\
      apply_results_checked t res = (set_results (Some res) t, None)).
Proof.
  unfold apply_results_checked, requested_interval.
  cbn [periodicity_min set_results callback_at].
  destruct (truthy_errors (errors res)); cbn [negb].
  { left. split; reflexivity. }
  right.
  destruct (if truthy_int (reschedule_in_mins res)
            then reschedule_in_mins res else periodicity_min t) as [d|].
  2:{ right. right. repeat split. }
  destruct (Z.eqb_spec d 0) as [->|Hnz]; cbn [negb].
  { right. right. repeat split. }
  rewrite floored_max. unfold add_minutes.
  destruct (representable (callback_at t + timedelta_minutes (Z.max d floor)))
    eqn:Hrep.
  - left. split; [reflexivity|]. exists d. repeat split; assumption.
  - right. left. split; [reflexivity|]. exists d. repeat split; assumption.
Qed.

Lemma name_try_outcome t1 : name (try_outcome t1).1 = name t1.
Proof.
  unfold try_outcome. destruct (handler_outcome t1) as [ex|res]; [reflexivity|].
  destruct (apply_results_checked_cases t1 res)
    as [[_ ->]|[(_ & d & _ & _ & _ & ->)|[(_ & d & _ & _ & _ & ->)|(_ & _ & ->)]]];
    reflexivity.
Qed.

Lemma name_final_checked t1 : name (final_checked t1) = name t1.
Proof.
  unfold final_checked. pose proof (name_try_outcome t1) as Hn.
  destruct (try_outcome t1) as [tm [ex|]]; simpl in Hn; [|assumption].
  destruct (str_failure ex); [reflexivity|exact Hn].
Qed.

Lemma mark_in_flight_run t w :
  mark_in_flight t w =
    (Ok (in_flight (clock (ticks w)) t),
     mkWorld (<[name t := in_flight (clock (ticks w)) t]> (store w))
             (S (ticks w))
             (log w ++ [EvSave (in_flight (clock (ticks w)) t)])).
Proof. reflexivity. Qed.

(** The [try] statement: it raises what [str] raises in the [except]
    clause, and then leaves the store as it found it; otherwise it leaves
    the final row of the timer. *)
Lemma settle_run t1 w :
  settle t1 w =
    (match aborts t1 with Some ex' => Raise ex' | None => Ok tt end,
     mkWorld (match aborts t1 with
              | Some _ => store w
              | None => <[name t1 := final_checked t1]> (store w)
              end)
             (ticks w)
             (log w ++ settle_events t1)).
Proof.
  pose proof (name_try_outcome t1) as Hname.
  unfold settle, try_block, catch, except_clause, py_str, aborts,
    final_checked, settle_events, except_events, try_outcome in *.
  unfold handler_outcome, resolve_outcome, resolve_handler,
    notification_timer_callback, save_notification_timer in *.
  run_monad.
  destruct (rpartition_dot (class_name t1)) as [[module_path sep] class_attr].
  destruct (import_module module_path) as [ex|module]; simpl.
  { destruct (str_failure ex); simpl; rewrite <- ?app_assoc; reflexivity. }
  destruct (module class_attr) as [ex|[ex|handler]]; simpl.
  { destruct (str_failure ex); simpl; rewrite <- ?app_assoc; reflexivity. }
  { destruct (str_failure ex); simpl; rewrite <- ?app_assoc; reflexivity. }
  destruct (handler t1) as [ex|res]; simpl.
  { destruct (str_failure ex); simpl; rewrite <- ?app_assoc; reflexivity. }
  destruct (apply_results_checked t1 res) as [tm [ex|]]; simpl in *.
  - destruct (str_failure ex); simpl; rewrite <- ?app_assoc, ?Hname;
      reflexivity.
  - rewrite <- ?app_assoc, Hname. reflexivity.
Qed.

(** The loop body: it reads the clock once and leaves the final row of the
    timer, which is the row saved with the mark when the body is aborted. *)
Lemma execute_timer_checked_run t w :
  execute_timer_checked t w =
    (match aborts (in_flight (clock (ticks w)) t) with
     | Some ex' => Raise ex'
     | None => Ok tt
     end,
     mkWorld (<[name t := final_checked (in_flight (clock (ticks w)) t)]> (store w))
             (S (ticks w))
             (log w ++ EvSave (in_flight (clock (ticks w)) t)
                    :: settle_events (in_flight (clock (ticks w)) t))).
Proof.
  unfold execute_timer_checked, mbind, M_bind, bind.
  rewrite mark_in_flight_run, settle_run. cbn [store ticks log].
  set (t1 := in_flight (clock (ticks w)) t).
  assert (final_checked t1 = t1 \/ aborts t1 = None) as Hfin.
  { unfold final_checked, aborts. destruct (try_outcome t1) as [tm [ex|]];
      [destruct (str_failure ex)|]; auto. }
  rewrite <- app_assoc. cbn [app].
  destruct (aborts t1) as [ex'|] eqn:Hab.
  - destruct Hfin as [->|]; [reflexivity|discriminate].
  - change (name t1) with (name t). rewrite insert_insert_eq. reflexivity.
Qed.

(** *** The loop and the scan pass *)

Lemma for_each_app {A} (l1 l2 : list A) (body : A -> M unit) w :
  for_each (l1 ++ l2) body w = (for_each l1 body;; for_each l2 body) w.
Proof.
  revert w. induction l1 as [|x l1 IH]; intros w; [reflexivity|].
  cbn [app for_each]. unfold mbind, M_bind, bind in *.
  destruct (body x w) as [[[]|ex] w1]; [apply IH|reflexivity].
Qed.

(** A loop that no timer aborts. *)
Lemma for_each_checked_run ts w :
  none_aborts (ticks w) ts = true ->
  for_each ts execute_timer_checked w =
    (Ok tt, mkWorld (pass_store_checked (ticks w) ts (store w))
                    (ticks w + length ts)
                    (log w ++ pass_events_checked (ticks w) ts)).
Proof.
  revert w. induction ts as [|t ts IH]; intros w Hno; simpl.
  - destruct w as [s k l]; simpl.
    rewrite Nat.add_0_r, app_nil_r. reflexivity.
  - simpl in Hno. unfold mbind, M_bind, bind.
    rewrite execute_timer_checked_run.
    destruct (aborts (in_flight (clock (ticks w)) t)); [discriminate|].
    rewrite IH by exact Hno. cbn [store ticks log].
    rewrite <- app_assoc. do 2 f_equal. lia.
Qed.

(** Any loop, aborted or not, touches only the rows of its timers and
    keeps rows under their names. *)
Lemma for_each_checked_frame ts w :
  exists r w',
    for_each ts execute_timer_checked w = (r, w') /\
    (forall n, n ∉ name <$> ts -> store w' !! n = store w !! n) /\
    (store_wf (store w) -> store_wf (store w')).
Proof.
  revert w. induction ts as [|t ts IH]; intros w.
  - exists (Ok tt), w. repeat split; auto.
  - cbn [for_each]. unfold mbind, M_bind, bind.
    rewrite execute_timer_checked_run.
    set (w1 := mkWorld _ _ _).
    assert (forall n, n <> name t -> store w1 !! n = store w !! n) as Hother.
    { intros n Hn. unfold w1. cbn [store]. apply lookup_insert_ne. congruence. }
    assert (store_wf (store w) -> store_wf (store w1)) as Hwf1.
    { intros Hwf n u. unfold w1. cbn [store]. rewrite lookup_insert.
      destruct (decide (name t = n)) as [<-|]; [|apply Hwf].
      intros [= <-]. rewrite name_final_checked. reflexivity. }
    destruct (aborts (in_flight (clock (ticks w)) t)) as [ex'|].
    + exists (Raise ex'), w1. split; [reflexivity|]. split; [|assumption].
      intros n Hn. rewrite fmap_cons, not_elem_of_cons in Hn. apply Hother, Hn.
    + destruct (IH w1) as (r & w' & Hrun & Hframe & Hwf').
      exists r, w'. split; [assumption|]. split; [|auto].
      intros n Hn. rewrite fmap_cons, not_elem_of_cons in Hn.
      destruct Hn as [Hne Hn]. rewrite Hframe by assumption. apply Hother, Hne.
Qed.

Lemma poll_checked_unfold w :
  poll_and_execute_timers_checked w =
    for_each (selected w) execute_timer_checked
      (mkWorld (store w) (S (ticks w)) (log w)).
Proof. reflexivity. Qed.

(** The pass up to its [i]-th timer, when it is reached. *)
Lemma poll_checked_prefix w i :
  reached w i ->
  for_each (take i (selected w)) execute_timer_checked
    (mkWorld (store w) (S (ticks w)) (log w))
  = (Ok tt,
     mkWorld (pass_store_checked (S (ticks w)) (take i (selected w)) (store w))
             (S (ticks w) + length (take i (selected w)))
             (log w ++ pass_events_checked (S (ticks w)) (take i (selected w)))).
Proof. intros Hreached. apply (for_each_checked_run _ (mkWorld _ _ _) Hreached). Qed.

Lemma pass_store_checked_other k ts s n :
  n ∉ name <$> ts -> pass_store_checked k ts s !! n = s !! n.
Proof.
  revert k s. induction ts as [|t ts IH]; intros k s Hn; simpl; [reflexivity|].
  rewrite fmap_cons, not_elem_of_cons in Hn. destruct Hn as [Hne Hn].
  rewrite IH by assumption. apply lookup_insert_ne. congruence.
Qed.

Lemma pass_store_checked_wf k ts s :
  store_wf s -> store_wf (pass_store_checked k ts s).
Proof.
  revert k s. induction ts as [|t ts IH]; intros k s Hwf; simpl; [assumption|].
  apply IH. intros n u. rewrite lookup_insert.
  destruct (decide (name t = n)) as [<-|]; [|apply Hwf].
  intros [= <-]. rewrite name_final_checked. reflexivity.
Qed.

(** A timer that the pass reaches ends the pass with the row of its loop
    body, whether the pass is aborted, at it or later, or not. *)
Lemma poll_checked_processed w i t :
  store_wf (store w) -> selected w !! i = Some t -> reached w i ->
  exists r w',
    poll_and_execute_timers_checked w = (r, w') /\
    store_wf (store w') /\
    store w' !! name t = Some (final_checked (in_flight (mark_time w i) t)).
Proof.
  intros Hwf Hi Hreached.
  pose proof (NoDup_selected w Hwf) as Hnd.
  pose proof (lookup_lt_Some _ _ _ Hi) as Hlen.
  destruct (poll_and_execute_timers_checked w) as [r w'] eqn:Hrun.
  exists r, w'. split; [reflexivity|].
  rewrite poll_checked_unfold in Hrun.
  rewrite <- (take_drop_middle (selected w) i t Hi) in Hrun at 1.
  rewrite for_each_app in Hrun. unfold mbind, M_bind, bind in Hrun.
  rewrite (poll_checked_prefix w i Hreached) in Hrun.
  rewrite length_take_le in Hrun by lia.
  cbn [for_each] in Hrun. unfold mbind, M_bind, bind in Hrun.
  rewrite execute_timer_checked_run in Hrun. cbn [store ticks log] in Hrun.
  fold (mark_time w i) in Hrun.
  set (s1 := <[name t := final_checked (in_flight (mark_time w i) t)]> _)
    in Hrun.
  assert (store_wf s1) as Hwf1.
  { intros n u. unfold s1. rewrite lookup_insert.
    destruct (decide (name t = n)) as [<-|];
      [|apply pass_store_checked_wf, Hwf].
    intros [= <-]. rewrite name_final_checked. reflexivity. }
  assert (s1 !! name t = Some (final_checked (in_flight (mark_time w i) t)))
    as Hrow by apply lookup_insert_eq.
  destruct (aborts (in_flight (mark_time w i) t)) as [ex'|].
  - injection Hrun as <- <-. split; assumption.
  - match type of Hrun with for_each ?l ?b ?w1 = _ =>
      destruct (for_each_checked_frame l w1) as (r2 & w2 & Hrun2 & Hframe & Hwf')
    end.
    rewrite Hrun2 in Hrun. injection Hrun as <- <-.
    split; [apply Hwf', Hwf1|].
    rewrite Hframe; [exact Hrow|].
    apply (name_not_after (selected w) i t); assumption.
Qed.

(** *** The events of a pass *)

Lemma event_timer_settle_events t1 e n :
  e ∈ settle_events t1 -> event_timer e = Some n -> n = name t1.
Proof.
  unfold settle_events, except_events. intros He Hn.
  pose proof (name_try_outcome t1) as Hname. unfold try_outcome in Hname.
  unfold handler_outcome in Hname.
  apply elem_of_cons in He as [->|He];
    [simpl in Hn; injection Hn as <-; reflexivity|].
  assert (forall tm ex,
            name tm = name t1 ->
            e ∈ match str_failure ex with
                | None => [EvSave (failed ex tm); EvLogException ex]
                | Some _ => []
                end -> n = name t1) as Hexc.
  { intros tm ex Htm Hin. destruct (str_failure ex); [inversion Hin|].
    apply elem_of_cons in Hin as [->|Hin];
      [simpl in Hn; injection Hn as <-; exact Htm|].
    apply list_elem_of_singleton in Hin as ->. discriminate. }
  destruct (resolve_outcome t1) as [ex|handler]; [eapply Hexc; eauto|].
  apply elem_of_cons in He as [->|He];
    [simpl in Hn; injection Hn as <-; reflexivity|].
  destruct (handler t1) as [ex|res]; [eapply Hexc; eauto|].
  destruct (apply_results_checked t1 res) as [tm [ex|]]; simpl in Hname.
  - eapply Hexc; eauto.
  - apply list_elem_of_singleton in He as ->.
    simpl in Hn. injection Hn as <-. exact Hname.
Qed.

Lemma event_timer_pass_events_checked k ts e n :
  e ∈ pass_events_checked k ts -> event_timer e = Some n -> n ∈ name <$> ts.
Proof.
  revert k. induction ts as [|u ts IH]; intros k He Hn;
    cbn [pass_events_checked] in He.
  - inversion He.
  - rewrite fmap_cons. apply elem_of_app in He as [He|He].
    + apply elem_of_cons in He as [->|He].
      * simpl in Hn. injection Hn as <-. apply list_elem_of_here.
      * rewrite (event_timer_settle_events _ _ _ He Hn).
        apply list_elem_of_here.
    + apply list_elem_of_further. eapply IH; eassumption.
Qed.

(** *** What the [try] block assigns, with checked dates *)

Lemma apply_results_checked_reschedule t res d :
  truthy_errors (errors res) = false ->
  requested_interval t res = Some d ->
  d <> 0 ->
  representable (callback_at t + timedelta_minutes (Z.max d floor)) = true ->
  apply_results_checked t res
  = (set_executed_at None
       (set_callback_at (callback_at t + timedelta_minutes (Z.max d floor))
          (set_results (Some res) t)),
     None).
Proof.
  intros He Hd Hnz Hrep.
  destruct (apply_results_checked_cases t res)
    as [[He' _]|[(_ & d' & Hd' & _ & _ & ->)
                |[(_ & d' & Hd' & _ & Hrep' & _)|(_ & Hd' & _)]]].
  - congruence.
  - rewrite Hd in Hd'. injection Hd' as <-. reflexivity.
  - rewrite Hd in Hd'. injection Hd' as <-. congruence.
  - rewrite Hd in Hd'. simpl in Hd'.
    destruct (Z.eqb_spec d 0); [contradiction|discriminate].
Qed.

Lemma apply_results_checked_overflow t res d :
  truthy_errors (errors res) = false ->
  requested_interval t res = Some d ->
  d <> 0 ->
  representable (callback_at t + timedelta_minutes (Z.max d floor)) = false ->
  apply_results_checked t res
  = (set_results (Some res) t,
     Some (overflow_error (callback_at t) (Z.max d floor))).
Proof.
  intros He Hd Hnz Hrep.
  destruct (apply_results_checked_cases t res)
    as [[He' _]|[(_ & d' & Hd' & _ & Hrep' & _)
                |[(_ & d' & Hd' & _ & _ & ->)|(_ & Hd' & _)]]].
  - congruence.
  - rewrite Hd in Hd'. injection Hd' as <-. congruence.
  - rewrite Hd in Hd'. injection Hd' as <-. reflexivity.
  - rewrite Hd in Hd'. simpl in Hd'.
    destruct (Z.eqb_spec d 0); [contradiction|discriminate].
Qed.

(** C1 (as amended): a selected (active, due) timer that the pass reaches,
    whose handler returns a payload without errors and without reschedule
    interval, and whose periodicity is a non-zero [P] that leaves
    [callback_at] plus [max P floor] minutes in the range of the dates, ends
    the scan pass with [callback_at] equal to its old [callback_at] plus
    [max P floor] minutes, and with [executed_at] null. *)
Theorem reschedule_by_periodicity w i t res P :
  store_wf (store w) ->
  selected w !! i = Some t ->
  reached w i ->
  handler_outcome (in_flight (mark_time w i) t) = inr res ->
  truthy_errors (errors res) = false ->
  reschedule_in_mins res = None ->
  periodicity_min t = Some P ->
  P <> 0 ->
  representable (callback_at t + timedelta_minutes (Z.max P floor)) = true ->
  exists r w' t',
    poll_and_execute_timers_checked w = (r, w') /\
    store w' !! name t = Some t' /\
    callback_at t' = callback_at t + timedelta_minutes (Z.max P floor) /\
    executed_at t' = None.
Proof.
  intros Hwf Hi Hreached Hout He Hr HP HP0 Hrep.
  destruct (poll_checked_processed w i t Hwf Hi Hreached)
    as (r & w' & Hrun & _ & Hrow).
  exists r, w', (final_checked (in_flight (mark_time w i) t)).
  split; [assumption|]. split; [assumption|].
  unfold final_checked, try_outcome. rewrite Hout.
  rewrite (apply_results_checked_reschedule _ _ P);
    [split; reflexivity|assumption| |assumption|exact Hrep].
  unfold requested_interval. rewrite Hr. exact HP.
Qed.

(** C8 (as amended): a selected timer that the pass reaches, that carries
    an error message [m] from an earlier failure, and whose handler now
    returns a payload without errors and without an interval that would
    put [callback_at] out of the range of the dates, ends the pass with the
    same error message [m]: the successful run does not clear it. *)
Theorem success_keeps_err_msg w i t res m :
  store_wf (store w) ->
  selected w !! i = Some t ->
  reached w i ->
  err_msg t = Some m ->
  handler_outcome (in_flight (mark_time w i) t) = inr res ->
  truthy_errors (errors res) = false ->
  (forall d, requested_interval t res = Some d -> d <> 0 ->
     representable (callback_at t + timedelta_minutes (Z.max d floor)) = true) ->
  exists r w' t',
    poll_and_execute_timers_checked w = (r, w') /\
    store w' !! name t = Some t' /\
    err_msg t' = Some m.
Proof.
  intros Hwf Hi Hreached Hm Hout He Hrep.
  destruct (poll_checked_processed w i t Hwf Hi Hreached)
    as (r & w' & Hrun & _ & Hrow).
  exists r, w', (final_checked (in_flight (mark_time w i) t)).
  split; [assumption|]. split; [assumption|].
  unfold final_checked, try_outcome. rewrite Hout.
  destruct (apply_results_checked_cases (in_flight (mark_time w i) t) res)
    as [[He' _]|[(_ & d & _ & _ & _ & ->)
                |[(_ & d & Hd & Hnz & Hrep' & _)|(_ & _ & ->)]]].
  - congruence.
  - exact Hm.
  - pose proof (Hrep d Hd Hnz) as Hin.
    cbn [callback_at in_flight set_executed_at] in Hrep'. congruence.
  - exact Hm.
Qed.

(** X1: when the handler of a selected timer that the pass reaches returns
    a payload without errors that asks for a non-zero interval [R] at or
    above the floor, and [callback_at] plus [R] minutes is in the range of
    the dates, the pass adds [R] minutes to [callback_at], whatever the
    periodicity of the timer, and clears [executed_at]. *)
Theorem requested_interval_overrides_periodicity w i t res R :
  store_wf (store w) ->
  selected w !! i = Some t ->
  reached w i ->
  handler_outcome (in_flight (mark_time w i) t) = inr res ->
  truthy_errors (errors res) = false ->
  reschedule_in_mins res = Some R ->
  R <> 0 ->
  floor <= R ->
  representable (callback_at t + timedelta_minutes R) = true ->
  exists r w' t',
    poll_and_execute_timers_checked w = (r, w') /\
    store w' !! name t = Some t' /\
    callback_at t' = callback_at t + timedelta_minutes R /\
    executed_at t' = None.
Proof.
  intros Hwf Hi Hreached Hout He Hr HR0 HR Hrep.
  destruct (poll_checked_processed w i t Hwf Hi Hreached)
    as (r & w' & Hrun & _ & Hrow).
  exists r, w', (final_checked (in_flight (mark_time w i) t)).
  split; [assumption|]. split; [assumption|].
  unfold final_checked, try_outcome. rewrite Hout.
  rewrite (apply_results_checked_reschedule _ _ R); [|assumption| |assumption|].
  - cbn [callback_at executed_at set_executed_at set_callback_at set_results
         in_flight fst snd].
    rewrite Z.max_l by lia. split; reflexivity.
  - unfold requested_interval. rewrite Hr. simpl.
    destruct (Z.eqb_spec R 0); [contradiction|reflexivity].
  - cbn [callback_at in_flight set_executed_at]. rewrite Z.max_l by lia.
    exact Hrep.
Qed.

(** X10: a selected timer that the pass reaches ends the pass inactive
    exactly when an exception with a text left its [try] block: one raised
    by the resolution or the call of its handler, or the [OverflowError] of
    an interval that puts [callback_at] out of the range of the dates. A
    payload whose interval is in range never deactivates the timer, and
    neither does an exception without text. *)
Theorem deactivated_iff_raised w i t :
  store_wf (store w) ->
  selected w !! i = Some t ->
  reached w i ->
  exists r w' t',
    poll_and_execute_timers_checked w = (r, w') /\
    store w' !! name t = Some t' /\
    (is_active t' = false <->
     (exists ex,
        handler_outcome (in_flight (mark_time w i) t) = inl ex /\
        str_failure ex = None)
     \/ (exists res d,
           handler_outcome (in_flight (mark_time w i) t) = inr res /\
           truthy_errors (errors res) = false /\
           requested_interval t res = Some d /\ d <> 0 /\
           representable (callback_at t + timedelta_minutes (Z.max d floor))
             = false /\
           str_failure (overflow_error (callback_at t) (Z.max d floor))
             = None)).
Proof.
  intros Hwf Hi Hreached.
  destruct (poll_checked_processed w i t Hwf Hi Hreached)
    as (r & w' & Hrun & _ & Hrow).
  pose proof (selected_active w t (list_elem_of_lookup_2 _ _ _ Hi)) as Hact.
  exists r, w', (final_checked (in_flight (mark_time w i) t)).
  split; [assumption|]. split; [assumption|].
  unfold final_checked, try_outcome.
  destruct (handler_outcome (in_flight (mark_time w i) t)) as [ex|res] eqn:Hout.
  { destruct (str_failure ex) eqn:Hstr.
    - split; [cbn [is_active in_flight set_executed_at]; congruence|].
      intros [(ex' & [= <-] & Hstr')|(res & d & [=] & _)]. congruence.
    - split; [left; eauto|reflexivity]. }
  destruct (apply_results_checked_cases (in_flight (mark_time w i) t) res)
    as [[He ->]|[(He & d & Hd & Hnz & Hrep & ->)
                |[(He & d & Hd & Hnz & Hrep & ->)|(He & Hd & ->)]]];
    cbn [is_active in_flight set_executed_at set_callback_at set_results
         set_err_msg callback_at] in *.
  - split; [congruence|].
    intros [(ex & [=] & _)|(res' & d & [= <-] & He' & _)]. congruence.
  - split; [congruence|].
    intros [(ex & [=] & _)|(res' & d' & [= <-] & _ & Hd' & _ & Hrep' & _)].
    change (requested_interval (in_flight (mark_time w i) t) res)
      with (requested_interval t res) in Hd.
    rewrite Hd in Hd'. injection Hd' as <-. congruence.
  - change (requested_interval (in_flight (mark_time w i) t) res)
      with (requested_interval t res) in Hd.
    destruct (str_failure (overflow_error (callback_at t) (Z.max d floor)))
      eqn:Hstr.
    + split; [cbn [is_active in_flight set_executed_at]; congruence|].
      intros [(ex & [=] & _)|(res' & d' & [= <-] & _ & Hd' & _ & _ & Hstr')].
      rewrite Hd in Hd'. injection Hd' as <-. congruence.
    + split; [|reflexivity]. intros _. right. exists res, d. repeat split;
        assumption.
  - split; [congruence|].
    intros [(ex & [=] & _)|(res' & d' & [= <-] & _ & Hd' & Hnz' & _)].
    change (requested_interval (in_flight (mark_time w i) t) res)
      with (requested_interval t res) in Hd.
    rewrite Hd' in Hd. simpl in Hd.
    destruct (Z.eqb_spec d' 0); [contradiction|discriminate].
Qed.

(** *** The two engines agree under the conventions of the first *)

Lemma apply_results_checked_in_range t res :
  (forall d, truthy_errors (errors res) = false ->
     requested_interval t res = Some d -> d <> 0 ->
     representable (callback_at t + timedelta_minutes (Z.max d floor)) = true) ->
  apply_results_checked t res = (apply_results t res, None).
Proof.
  intros Hrep.
  destruct (apply_results_checked_cases t res)
    as [[He ->]|[(He & d & Hd & Hnz & _ & ->)
                |[(He & d & Hd & Hnz & Hout & _)|(He & Hd & ->)]]].
  - rewrite apply_results_errors by assumption. reflexivity.
  - rewrite (apply_results_reschedule _ _ d) by assumption. reflexivity.
  - rewrite (Hrep d He Hd Hnz) in Hout. discriminate.
  - rewrite apply_results_one_shot by assumption. reflexivity.
Qed.

(** When the exception of the [try] block, if any, has a text, and the
    interval, if any, keeps the date in range, the loop body of the
    checked engine does what the loop body of the first engine does. *)
Lemma execute_timer_checked_agrees t w :
  (forall ex, handler_outcome (in_flight (clock (ticks w)) t) = inl ex ->
     str_failure ex = None) ->
  (forall res d,
     handler_outcome (in_flight (clock (ticks w)) t) = inr res ->
     truthy_errors (errors res) = false ->
     requested_interval t res = Some d -> d <> 0 ->
     representable (callback_at t + timedelta_minutes (Z.max d floor)) = true) ->
  execute_timer_checked t w = execute_timer t w.
Proof.
  intros Hstr Hrep. rewrite execute_timer_checked_run, execute_timer_run.
  set (t1 := in_flight (clock (ticks w)) t) in *.
  unfold aborts, final_checked, final_timer, try_outcome, settle_events,
    timer_events, except_events.
  fold t1. unfold handler_outcome in *.
  destruct (resolve_outcome t1) as [ex|handler].
  { rewrite (Hstr ex eq_refl). reflexivity. }
  destruct (handler t1) as [ex|res].
  { rewrite (Hstr ex eq_refl). reflexivity. }
  rewrite (apply_results_checked_in_range t1 res); [reflexivity|].
  intros d He Hd Hnz. apply (Hrep res d eq_refl He Hd Hnz).
Qed.

(** *** The in-flight mark *)

(** C3: for every timer that a scan pass reaches, the pass up to and with
    lines 42-43 for that timer ends in a world whose store holds the row of
    the timer with [executed_at] set to the clock reading, without any
    resolution or call of its handler so far; the rest of the pass, which
    begins with the resolution of that handler, starts from that world. *)
Theorem in_flight_mark_saved_first w i t :
  store_wf (store w) ->
  selected w !! i = Some t ->
  reached w i ->
  exists w0 w1,
    (timers ← get_all_active_timers;
     for_each (take i timers) execute_timer_checked) w = (Ok tt, w0) /\
    mark_in_flight t w0 = (Ok (in_flight (mark_time w i) t), w1) /\
    executed_at (in_flight (mark_time w i) t) = Some (mark_time w i) /\
    store w1 !! name t = Some (in_flight (mark_time w i) t) /\
    (forall e, e ∈ new_events w w1 -> event_timer e = Some (name t) ->
       e = EvSave (in_flight (mark_time w i) t)) /\
    poll_and_execute_timers_checked w
    = (settle (in_flight (mark_time w i) t);;
       for_each (drop (S i) (selected w)) execute_timer_checked) w1 /\
    exists r w2 rest,
      settle (in_flight (mark_time w i) t) w1 = (r, w2) /\
      new_events w1 w2 = EvResolve (in_flight (mark_time w i) t) :: rest.
Proof.
  intros Hwf Hi Hreached.
  pose proof (NoDup_selected w Hwf) as Hnd.
  pose proof (lookup_lt_Some _ _ _ Hi) as Hlen.
  pose proof (poll_checked_prefix w i Hreached) as Hpre.
  rewrite length_take_le in Hpre by lia.
  set (w0 := mkWorld
               (pass_store_checked (S (ticks w)) (take i (selected w)) (store w))
               (S (ticks w) + i)
               (log w ++ pass_events_checked (S (ticks w)) (take i (selected w))))
    in *.
  pose proof (mark_in_flight_run t w0) as Hmark.
  change (clock (ticks w0)) with (mark_time w i) in Hmark.
  set (t1 := in_flight (mark_time w i) t) in *.
  set (w1 := mkWorld (<[name t := t1]> (store w0)) (S (ticks w0))
                     (log w0 ++ [EvSave t1])) in *.
  exists w0, w1.
  split; [exact Hpre|]. split; [exact Hmark|]. split; [reflexivity|].
  split; [apply lookup_insert_eq|].
  split; [|split].
  - intros e He Hn. unfold new_events, w1, w0 in He. cbn [log] in He.
    rewrite <- app_assoc, drop_app_length in He.
    apply elem_of_app in He as [He|He].
    + exfalso. apply (name_not_before (selected w) i t Hnd Hi).
      eapply event_timer_pass_events_checked; eassumption.
    + apply list_elem_of_singleton in He. exact He.
  - rewrite poll_checked_unfold.
    rewrite <- (take_drop_middle (selected w) i t Hi) at 1.
    rewrite for_each_app. unfold mbind, M_bind, bind.
    rewrite Hpre. cbn [for_each]. unfold execute_timer_checked.
    unfold mbind, M_bind, bind. rewrite Hmark. reflexivity.
  - pose proof (settle_run t1 w1) as Hsettle.
    eexists _, _, _. split; [exact Hsettle|].
    unfold new_events. cbn [log]. rewrite drop_app_length. reflexivity.
Qed.

(** *** Passes that are aborted and passes that are not *)

(** X12: a scan pass in which no exception without text reaches the
    [except] clause returns normally; when the [except] clause of a timer
    that the pass reaches raises, the pass raises that exception, the row
    of the timer is left as it was saved with its in-flight mark, and the
    rows of the timers that come later in the pass are left untouched. *)
Theorem pass_stops_where_str_raises w :
  store_wf (store w) ->
  (none_aborts (S (ticks w)) (selected w) = true ->
   exists w', poll_and_execute_timers_checked w = (Ok tt, w')) /\
  (forall i t ex',
     selected w !! i = Some t ->
     reached w i ->
     aborts (in_flight (mark_time w i) t) = Some ex' ->
     exists w',
       poll_and_execute_timers_checked w = (Raise ex', w') /\
       store w' !! name t = Some (in_flight (mark_time w i) t) /\
       forall j u, (i < j)%nat -> selected w !! j = Some u ->
                   store w' !! name u = Some u).
Proof.
  intros Hwf. pose proof (NoDup_selected w Hwf) as Hnd. split.
  - intros Hno. eexists. rewrite poll_checked_unfold.
    apply (for_each_checked_run _ (mkWorld _ _ _) Hno).
  - intros i t ex' Hi Hreached Hab.
    pose proof (lookup_lt_Some _ _ _ Hi) as Hlen.
    pose proof (poll_checked_prefix w i Hreached) as Hpre.
    rewrite length_take_le in Hpre by lia.
    eexists. split; [|split].
    + rewrite poll_checked_unfold.
      rewrite <- (take_drop_middle (selected w) i t Hi) at 1.
      rewrite for_each_app. unfold mbind, M_bind, bind.
      rewrite Hpre. cbn [for_each]. unfold mbind, M_bind, bind.
      rewrite execute_timer_checked_run. cbn [store ticks log].
      fold (mark_time w i). rewrite Hab. reflexivity.
    + cbn [store]. rewrite lookup_insert_eq. f_equal.
      unfold final_checked. unfold aborts in Hab.
      destruct (try_outcome (in_flight (mark_time w i) t)) as [tm [ex|]];
        [|discriminate].
      rewrite Hab. reflexivity.
    + intros j u Hij Hj. cbn [store].
      assert (name u <> name t) as Hne.
      { intros Heq.
        assert ((name <$> selected w) !! i = Some (name t)) as Hi'
          by (rewrite list_lookup_fmap, Hi; reflexivity).
        assert ((name <$> selected w) !! j = Some (name t)) as Hj'
          by (rewrite list_lookup_fmap, Hj, <- Heq; reflexivity).
        pose proof (NoDup_lookup _ _ _ _ Hnd Hi' Hj'). lia. }
      rewrite lookup_insert_ne by congruence.
      rewrite pass_store_checked_other.
      * apply elem_of_selected; [assumption|].
        apply list_elem_of_lookup_2 with j. exact Hj.
      * intros Hin. apply list_elem_of_lookup in Hin as [k Hk].
        rewrite fmap_take in Hk.
        pose proof (lookup_lt_Some _ _ _ Hk) as Hlt. rewrite length_take in Hlt.
        rewrite lookup_take_lt in Hk by lia.
        assert ((name <$> selected w) !! j = Some (name u)) as Hj'
          by (rewrite list_lookup_fmap, Hj; reflexivity).
        pose proof (NoDup_lookup _ _ _ _ Hnd Hj' Hk). lia.
Qed.

(** *** Rows that later operations leave alone *)

Lemma poll_checked_inactive w :
  store_wf (store w) ->
  exists r w',
    poll_and_execute_timers_checked w = (r, w') /\ store_wf (store w') /\
    forall n t, store w !! n = Some t -> is_active t = false ->
                store w' !! n = Some t.
Proof.
  intros Hwf. rewrite poll_checked_unfold.
  destruct (for_each_checked_frame (selected w)
              (mkWorld (store w) (S (ticks w)) (log w)))
    as (r & w' & Hrun & Hframe & Hwf').
  exists r, w'. split; [assumption|]. split; [apply Hwf', Hwf|].
  intros n t Hn Ht. rewrite Hframe; [exact Hn|].
  intros Hin. apply list_elem_of_fmap in Hin as (u & -> & Hu).
  exact (not_selected w _ t Hwf Hn (eligible_inactive _ _ Ht) u Hu eq_refl).
Qed.

Lemma run_ops_checked_inactive ops w :
  store_wf (store w) ->
  exists r w',
    run_ops_checked ops w = (r, w') /\ store_wf (store w') /\
    forall n t, store w !! n = Some t -> is_active t = false ->
                store w' !! n = Some t.
Proof.
  revert w. induction ops as [|op ops IH]; intros w Hwf.
  - exists (Ok tt), w. repeat split; auto.
  - assert (exists r1 w1,
              run_op_checked op w = (r1, w1) /\ store_wf (store w1) /\
              forall n t, store w !! n = Some t -> is_active t = false ->
                          store w1 !! n = Some t) as (r1 & w1 & Hrun1 & Hwf1 & Hk1).
    { destruct op; simpl; [apply poll_checked_inactive, Hwf|].
      destruct (run_op_inactive Register w Hwf) as (w1 & Hrun & Hwf1 & Hk).
      exists (Ok tt), w1. auto. }
    unfold run_ops_checked in *. cbn [for_each]. unfold mbind, M_bind, bind.
    rewrite Hrun1. destruct r1 as [[]|ex].
    + destruct (IH w1 Hwf1) as (r & w' & Hrun & Hwf' & Hk).
      exists r, w'. split; [assumption|]. split; [assumption|].
      intros n t Hn Ht. apply Hk; [apply Hk1|]; assumption.
    + exists (Raise ex), w1. auto.
Qed.

(** X24: when the resolution or the call of the handler of a selected
    timer that the pass reaches raises an exception that has a text, the
    pass leaves the timer inactive, with that text as error message and
    with [executed_at] at its in-flight mark; whatever operations of the
    engine follow, aborted or not, the row stays so and no later scan
    selects the timer. *)
Theorem failure_with_text_is_final w i t ex :
  store_wf (store w) ->
  selected w !! i = Some t ->
  reached w i ->
  handler_outcome (in_flight (mark_time w i) t) = inl ex ->
  str_failure ex = None ->
  exists r w' t',
    poll_and_execute_timers_checked w = (r, w') /\
    store w' !! name t = Some t' /\
    is_active t' = false /\
    err_msg t' = Some (str_exn ex) /\
    executed_at t' = Some (mark_time w i) /\
    forall ops, exists r' w'',
      run_ops_checked ops w' = (r', w'') /\
      store w'' !! name t = Some t' /\
      forall u, u ∈ selected w'' -> name u <> name t.
Proof.
  intros Hwf Hi Hreached Hout Hstr.
  destruct (poll_checked_processed w i t Hwf Hi Hreached)
    as (r & w' & Hrun & Hwf' & Hrow).
  unfold final_checked, try_outcome in Hrow. rewrite Hout, Hstr in Hrow.
  exists r, w', (failed ex (in_flight (mark_time w i) t)).
  do 5 (split; [assumption || reflexivity|]).
  intros ops.
  destruct (run_ops_checked_inactive ops w' Hwf')
    as (r' & w'' & Hops & Hwf'' & Hkeep).
  exists r', w''. split; [assumption|].
  assert (store w'' !! name t = Some (failed ex (in_flight (mark_time w i) t)))
    as Hrow'' by (apply Hkeep; [assumption|reflexivity]).
  split; [assumption|].
  eapply not_selected; [eassumption..|]. apply eligible_inactive. reflexivity.
Qed.

(** *** Which module and which class the engine asks for *)

(** X16: for a class name of the form [m.c], where [c] has no dot,
    lines 46-50 record the resolution, import the module [m] (everything
    before the last dot), read its attribute [c] and call it without
    argument; the first of the three steps that raises decides the
    exception, and nothing is stored. *)
Theorem handler_resolved_at_last_dot t m c w :
  class_name t = (m ++ String "." c)%string ->
  PyStr.contains "." c = false ->
  resolve_handler t w =
    (match import_module m with
     | inl ex => Raise ex
     | inr module =>
         match module c with
         | inl ex => Raise ex
         | inr (inl ex) => Raise ex
         | inr (inr handler) => Ok handler
         end
     end,
     mkWorld (store w) (ticks w) (log w ++ [EvResolve t])).
Proof.
  intros Hname Hc. unfold resolve_handler, rpartition_dot.
  rewrite Hname, (rsplit_dot_last m c Hc). run_monad.
  destruct (import_module m) as [ex|module]; [reflexivity|]. simpl.
  destruct (module c) as [ex|[ex|handler]]; reflexivity.
Qed.

End Engine.

(** ** Properties of the rows of the SQL store *)

Section RowProperties.

Variable Dict : Type.
Variable to_json : option Dict -> option string.
Variable from_json : option string -> option Dict.
Variable context_to_json : option string -> option string.
Variable context_from_json : option string -> option string.
Variable results_to_json : option CallbackResults -> option string.
Variable results_from_json : option string -> option CallbackResults.
Variable validate : SQL.NotificationMessage Dict -> option exn.

(** X18: a notification type survives the way to a row and back, and a
    row survives the way to a data object and back, whatever the freshly
    constructed row was. *)
Theorem type_round_trips obj (msg_type : SQL.NotificationType)
    (row : SQL.SQLNotificationType) :
  SQL.type_to_data_object (SQL.type_from_data_object obj msg_type) = msg_type /\
  SQL.type_from_data_object obj (SQL.type_to_data_object row) = row.
Proof. destruct msg_type, row. split; reflexivity. Qed.

(** X19: when the JSON text of the context and of the results of a timer
    reads back as what was written, the timer read from the row it was
    loaded into is the same timer, with the two timestamps of the row. *)
Theorem timer_row_round_trip obj (t : Timer) :
  context_from_json (context_to_json (context t)) = context t ->
  results_from_json (results_to_json (results t)) = results t ->
  SQL.timer_to_data_object context_from_json results_from_json
    (SQL.timer_from_data_object context_to_json results_to_json obj t)
  = SQL.mkTimestampedTimer t (Some (SQL.sqltimer_created obj))
                             (Some (SQL.sqltimer_modified obj)).
Proof.
  intros Hc Hr. destruct t. unfold SQL.timer_to_data_object.
  simpl in *. rewrite Hc, Hr. reflexivity.
Qed.

(** X20: when the validation of a message raises, converting the message
    to a row raises that exception, and the row being loaded is left as it
    was: validation comes before every assignment. *)
Theorem message_validation_guards_row type_obj self
    (msg : SQL.NotificationMessage Dict) ex :
  validate msg = Some ex ->
  SQL.msg_from_data_object Dict to_json validate type_obj self msg = inl ex /\
  SQL.msg_load_from_data_object Dict to_json validate type_obj self msg
  = (Some ex, self).
Proof.
  intros Hv. unfold SQL.msg_from_data_object, SQL.msg_load_from_data_object.
  rewrite Hv. split; reflexivity.
Qed.

(** X21: a message that passes validation and whose payload reads back
    from its JSON text as written comes back from its row with all its
    attributes, the timestamps being those of the row; the priority of the
    row is not set by the message. *)
Theorem message_round_trip type_obj obj (msg : SQL.NotificationMessage Dict) :
  validate msg = None ->
  from_json (to_json (SQL.msg_payload Dict msg)) = SQL.msg_payload Dict msg ->
  exists row,
    SQL.msg_from_data_object Dict to_json validate type_obj obj msg = inr row /\
    SQL.sqlmsg_priority row = SQL.sqlmsg_priority obj /\
    SQL.msg_to_data_object Dict from_json row
    = SQL.mkNotificationMessage Dict
        (SQL.msg_id Dict msg) (SQL.msg_namespace Dict msg)
        (SQL.msg_msg_type Dict msg) (SQL.msg_from_user_id Dict msg)
        (SQL.msg_deliver_no_earlier_than Dict msg)
        (SQL.msg_expires_at Dict msg)
        (SQL.msg_expires_secs_after_read Dict msg)
        (SQL.msg_payload Dict msg)
        (Some (SQL.sqlmsg_created obj)) (Some (SQL.sqlmsg_modified obj)).
Proof.
  intros Hv Hp.
  unfold SQL.msg_from_data_object, SQL.msg_load_from_data_object.
  rewrite Hv. eexists. split; [reflexivity|]. split; [reflexivity|].
  unfold SQL.msg_to_data_object. simpl. rewrite Hp.
  destruct (SQL.msg_msg_type Dict msg). reflexivity.
Qed.

(** X22: when the message of a user notification fails validation, loading
    the user notification into a row raises that exception after the row
    has taken the id and the user id, and before it takes anything else. *)
Theorem user_notification_failure_is_partial type_obj msg_obj self
    (user_msg : SQL.UserNotification Dict) ex :
  validate (SQL.un_msg Dict user_msg) = Some ex ->
  SQL.un_from_data_object Dict to_json validate type_obj msg_obj self user_msg
  = inl ex /\
  SQL.un_load_from_data_object Dict to_json validate type_obj msg_obj self user_msg
  = (Some ex,
     SQL.mkSQLUserNotification
       (SQL.un_id Dict user_msg) (SQL.un_user_id Dict user_msg)
       (SQL.sqlun_msg self) (SQL.sqlun_read_at self)
       (SQL.sqlun_user_context self)
       (SQL.sqlun_created self) (SQL.sqlun_modified self)).
Proof.
  intros Hv.
  unfold SQL.un_from_data_object, SQL.un_load_from_data_object,
    SQL.msg_from_data_object, SQL.msg_load_from_data_object.
  rewrite Hv. split; reflexivity.
Qed.

(** X23: a user notification whose message passes validation, and whose
    payload and user context read back from their JSON text as written,
    comes back from its row with all its attributes; only the timestamps of
    its message are those of the message row. *)
Theorem user_notification_round_trip type_obj msg_obj obj
    (user_msg : SQL.UserNotification Dict) :
  validate (SQL.un_msg Dict user_msg) = None ->
  from_json (to_json (SQL.msg_payload Dict (SQL.un_msg Dict user_msg)))
  = SQL.msg_payload Dict (SQL.un_msg Dict user_msg) ->
  from_json (to_json (SQL.un_user_context Dict user_msg))
  = SQL.un_user_context Dict user_msg ->
  exists row,
    SQL.un_from_data_object Dict to_json validate type_obj msg_obj obj user_msg
    = inr row /\
    SQL.un_to_data_object Dict from_json row
    = SQL.mkUserNotification Dict
        (SQL.un_id Dict user_msg) (SQL.un_user_id Dict user_msg)
        (SQL.mkNotificationMessage Dict
           (SQL.msg_id Dict (SQL.un_msg Dict user_msg))
           (SQL.msg_namespace Dict (SQL.un_msg Dict user_msg))
           (SQL.msg_msg_type Dict (SQL.un_msg Dict user_msg))
           (SQL.msg_from_user_id Dict (SQL.un_msg Dict user_msg))
           (SQL.msg_deliver_no_earlier_than Dict (SQL.un_msg Dict user_msg))
           (SQL.msg_expires_at Dict (SQL.un_msg Dict user_msg))
           (SQL.msg_expires_secs_after_read Dict (SQL.un_msg Dict user_msg))
           (SQL.msg_payload Dict (SQL.un_msg Dict user_msg))
           (Some (SQL.sqlmsg_created msg_obj))
           (Some (SQL.sqlmsg_modified msg_obj)))
        (SQL.un_read_at Dict user_msg)
        (SQL.un_user_context Dict user_msg).
Proof.
  intros Hv Hp Hc.
  unfold SQL.un_from_data_object, SQL.un_load_from_data_object,
    SQL.msg_from_data_object, SQL.msg_load_from_data_object.
  rewrite Hv. eexists. split; [reflexivity|].
  unfold SQL.un_to_data_object, SQL.msg_to_data_object. simpl.
  rewrite Hp, Hc.
  destruct (SQL.msg_msg_type Dict (SQL.un_msg Dict user_msg)). reflexivity.
Qed.

End RowProperties.

(** ** Concrete runs *)

Example rpartition_dot_dotted :
  rpartition_dot "edx_notifications.callbacks.Handler"
  = ("edx_notifications.callbacks", ".", "Handler").
Proof. reflexivity. Qed.

Example rpartition_dot_plain : rpartition_dot "Handler" = ("", "", "Handler").
Proof. reflexivity. Qed.

Example str_list_two :
  PyStr.str_list ["quota exceeded"; "it's late"]
  = String.append "['quota exceeded', "
      (String PyStr.dquote (String.append "it's late"
         (String PyStr.dquote "]"))).
Proof. reflexivity. Qed.

Lemma store_wf_empty : store_wf (∅ : gmap string Timer).
Proof. apply map_Forall_empty. Qed.

Ltac wf_by_computation :=
  apply (bool_decide_unpack (map_Forall (fun k t => name t = k) _));
  vm_compute; reflexivity.

(** C1, as stated, fails for a periodicity of zero: the handler succeeds
    without interval, and the timer keeps its [callback_at] and its
    in-flight mark. *)
Lemma periodicity_zero_not_rescheduled :
  let t := Examples.timer "job" "jobs.Fine" (Some 0) None in
  let w := Examples.world [t] in
  let imp := Examples.import_module Examples.no_errors in
  selected Examples.clock w !! 0%nat = Some t /\
  handler_outcome imp (in_flight (mark_time Examples.clock w 0) t)
    = inr Examples.no_errors /\
  truthy_errors (errors Examples.no_errors) = false /\
  reschedule_in_mins Examples.no_errors = None /\
  periodicity_min t = Some 0 /\
  exists w' t',
    poll_and_execute_timers Examples.clock imp None w = (Ok tt, w') /\
    store w' !! name t = Some t' /\
    callback_at t' = callback_at t /\
    callback_at t' <> callback_at t + timedelta_minutes (Z.max 0 60) /\
    executed_at t' = Some 1001 /\
    executed_at t' <> None.
Proof.
  repeat split; try (vm_compute; reflexivity).
  do 2 eexists. split; [vm_compute; reflexivity|].
  split; [vm_compute; reflexivity|].
  repeat split; try (vm_compute; reflexivity); vm_compute; discriminate.
Qed.



(** C8, as stated, fails: a timer soft-fails in one pass, its in-flight mark
    is reset from outside, and the next pass runs it with success; the
    error message of the first pass is still there. *)
Lemma err_msg_survives_success :
  let t := Examples.timer "job" "jobs.Fine" (Some 120) None in
  let failing := Examples.import_module Examples.quota in
  let working := Examples.import_module Examples.no_errors in
  exists w1 t1 w2 t2,
    poll_and_execute_timers Examples.clock failing None (Examples.world [t])
      = (Ok tt, w1) /\
    store w1 !! "job" = Some t1 /\
    err_msg t1 = Some "['quota exceeded']" /\
    selected Examples.clock (Examples.nudge "job" w1) !! 0%nat
      = Some (set_executed_at None t1) /\
    handler_outcome working
      (in_flight (mark_time Examples.clock (Examples.nudge "job" w1) 0)
                 (set_executed_at None t1))
      = inr Examples.no_errors /\
    truthy_errors (errors Examples.no_errors) = false /\
    poll_and_execute_timers Examples.clock working None
      (Examples.nudge "job" w1) = (Ok tt, w2) /\
    store w2 !! "job" = Some t2 /\
    executed_at t2 = None /\
    callback_at t2 = callback_at t + timedelta_minutes 120 /\
    err_msg t2 = Some "['quota exceeded']" /\
    err_msg t2 <> None.
Proof.
  do 4 eexists.
  split; [vm_compute; reflexivity|].
  split; [vm_compute; reflexivity|].
  split; [vm_compute; reflexivity|].
  split; [vm_compute; reflexivity|].
  split; [vm_compute; reflexivity|].
  split; [vm_compute; reflexivity|].
  split; [vm_compute; reflexivity|].
  split; [vm_compute; reflexivity|].
  split; [vm_compute; reflexivity|].
  split; [vm_compute; reflexivity|].
  split; [vm_compute; reflexivity|vm_compute; discriminate].
Qed.



Lemma register_twice_creates_one_witness :
  exists w1 w2 t,
    register_purge_notifications_timer Examples.clock Examples.empty_world
      = (Ok tt, w1) /\
    register_purge_notifications_timer Examples.clock w1 = (Ok tt, w2) /\
    name t = PURGE_TIMER_NAME /\
    store w1 = {[ PURGE_TIMER_NAME := t ]} /\
    new_events Examples.empty_world w1 = [EvSave t] /\
    store w2 = store w1 /\
    new_events w1 w2 = [] /\
    size (store w2) = 1%nat.
Proof.
  apply (register_twice_creates_one Examples.clock Examples.empty_world).
  reflexivity.
Defined.

Lemma purge_timer_created_witness :
  exists w' t,
    register_purge_notifications_timer Examples.clock Examples.two_timers
      = (Ok tt, w') /\
    store w' !! PURGE_TIMER_NAME = Some t /\
    name t = "purge-notifications-timer" /\
    is_active t = true /\
    periodicity_min t = Some 1440 /\
    1000 < callback_at t /\
    time_of_day (callback_at t) = 3600000000 /\
    date_of (callback_at t) = date_of 1000 + 1.
Proof.
  apply (purge_timer_created Examples.clock Examples.two_timers).
  vm_compute; reflexivity.
Defined.


(** ** Concrete runs of the further properties *)





Lemma nothing_eligible_nothing_done_witness :
  poll_and_execute_timers Examples.clock
    (Examples.import_module Examples.no_errors) None
    (Examples.world [Examples.set_aside])
  = (Ok tt, mkWorld (store (Examples.world [Examples.set_aside])) 1 []).
Proof.
  apply (nothing_eligible_nothing_done Examples.clock
           (Examples.import_module Examples.no_errors) None
           (Examples.world [Examples.set_aside])).
  apply (bool_decide_unpack
           (map_Forall (fun _ t => eligible 1000 t = false) _)).
  vm_compute; reflexivity.
Defined.




Lemma registration_leaves_existing_timer_witness :
  exists w',
    register_purge_notifications_timer Examples.clock
      (Examples.world [Examples.purge_like; Examples.fine]) = (Ok tt, w') /\
    store w' = store (Examples.world [Examples.purge_like; Examples.fine]) /\
    new_events (Examples.world [Examples.purge_like; Examples.fine]) w' = [].
Proof.
  apply (registration_leaves_existing_timer Examples.clock
           (Examples.world [Examples.purge_like; Examples.fine])
           Examples.purge_like).
  vm_compute; reflexivity.
Defined.

Lemma purge_timer_first_execution_window_witness :
  exists w' t,
    register_purge_notifications_timer Examples.clock Examples.two_timers
      = (Ok tt, w') /\
    store w' !! PURGE_TIMER_NAME = Some t /\
    1000 + 1 * USEC_PER_HOUR < callback_at t /\
    callback_at t <= 1000 + 25 * USEC_PER_HOUR /\
    executed_at t = None /\
    eligible 1000 t = false.
Proof.
  apply (purge_timer_first_execution_window Examples.clock Examples.two_timers).
  vm_compute; reflexivity.
Defined.


Lemma timer_row_round_trip_witness :
  SQL.timer_to_data_object Examples.context_from_json
    Examples.results_from_json
    (SQL.timer_from_data_object Examples.context_to_json
       Examples.results_to_json Examples.timer_obj
       (set_results (Some Examples.no_errors) Examples.fine))
  = SQL.mkTimestampedTimer
      (set_results (Some Examples.no_errors) Examples.fine)
      (Some 990) (Some 990).
Proof.
  apply (timer_row_round_trip Examples.context_to_json
           Examples.context_from_json Examples.results_to_json
           Examples.results_from_json Examples.timer_obj
           (set_results (Some Examples.no_errors) Examples.fine)).
  - reflexivity.
  - reflexivity.
Defined.

Lemma message_round_trip_witness :
  exists row,
    SQL.msg_from_data_object string Examples.context_to_json Examples.validate
      Examples.type_obj Examples.msg_obj Examples.good_msg = inr row /\
    SQL.sqlmsg_priority row = 0 /\
    SQL.msg_to_data_object string Examples.context_from_json row
    = SQL.mkNotificationMessage string (Some 7) (Some "course-1")
        (SQL.mkNotificationType "open-edx.forum.reply" "underscore")
        (Some 42) None (Some 5000) None (Some "{title: hello}")
        (Some 900) (Some 900).
Proof.
  apply (message_round_trip string Examples.context_to_json
           Examples.context_from_json Examples.validate
           Examples.type_obj Examples.msg_obj Examples.good_msg).
  - reflexivity.
  - reflexivity.
Defined.

Lemma user_notification_failure_is_partial_witness :
  SQL.un_from_data_object string Examples.context_to_json Examples.validate
    Examples.type_obj Examples.msg_obj Examples.un_obj
    (SQL.mkUserNotification string (Some 3) 42 Examples.bad_msg None None)
  = inl (OtherException "namespace is missing") /\
  SQL.un_load_from_data_object string Examples.context_to_json
    Examples.validate Examples.type_obj Examples.msg_obj Examples.un_obj
    (SQL.mkUserNotification string (Some 3) 42 Examples.bad_msg None None)
  = (Some (OtherException "namespace is missing"),
     SQL.mkSQLUserNotification (Some 3) 42 Examples.msg_obj None None 950 950).
Proof.
  apply (user_notification_failure_is_partial string Examples.context_to_json
           Examples.validate Examples.type_obj Examples.msg_obj Examples.un_obj
           (SQL.mkUserNotification string (Some 3) 42 Examples.bad_msg None None)
           (OtherException "namespace is missing")).
  reflexivity.
Defined.

Lemma user_notification_round_trip_witness :
  exists row,
    SQL.un_from_data_object string Examples.context_to_json Examples.validate
      Examples.type_obj Examples.msg_obj Examples.un_obj
      (SQL.mkUserNotification string (Some 3) 42 Examples.good_msg
         (Some 1200) (Some "{seen: true}"))
    = inr row /\
    SQL.un_to_data_object string Examples.context_from_json row
    = SQL.mkUserNotification string (Some 3) 42
        (SQL.mkNotificationMessage string (Some 7) (Some "course-1")
           (SQL.mkNotificationType "open-edx.forum.reply" "underscore")
           (Some 42) None (Some 5000) None (Some "{title: hello}")
           (Some 900) (Some 900))
        (Some 1200) (Some "{seen: true}").
Proof.
  apply (user_notification_round_trip string Examples.context_to_json
           Examples.context_from_json Examples.validate
           Examples.type_obj Examples.msg_obj Examples.un_obj
           (SQL.mkUserNotification string (Some 3) 42 Examples.good_msg
              (Some 1200) (Some "{seen: true}"))).
  - reflexivity.
  - reflexivity.
  - reflexivity.
Defined.

(** ** Concrete runs of the checked engine *)

(** C2: the code does not do what the claim says for an exception without
    text. The callback of the timer raises [Exception(u'\xe9')]; in the
    [except] clause [str(ex)] raises in its turn, so that the timer is
    neither deactivated nor given an error message: its row is the one
    saved with the in-flight mark. *)
Theorem exception_without_text_leaves_timer_active :
  selected Examples.clock Unicode.garbled_first !! 0%nat
  = Some Unicode.garbling /\
  handler_outcome (Unicode.import_module Examples.no_errors)
    (in_flight 1001 Unicode.garbling) = inl Unicode.garbled /\
  exists w' t',
    poll_and_execute_timers_checked Examples.clock
      (Unicode.import_module Examples.no_errors) None
      Unicode.str_failure Unicode.overflow_error Unicode.garbled_first
    = (Raise Unicode.unicode_error, w') /\
    store w' !! "alpha" = Some t' /\
    is_active t' = true /\
    err_msg t' = None /\
    executed_at t' = Some 1001.
Proof.
  split; [vm_compute; reflexivity|]. split; [vm_compute; reflexivity|].
  do 2 eexists. split; [vm_compute; reflexivity|].
  split; [vm_compute; reflexivity|]. repeat split.
Qed.

(** C4: the code does not do what the claim says for an exception without
    text. The first timer of the pass raises [Exception(u'\xe9')]; the
    exception that [str(ex)] raises in the [except] clause leaves the loop
    and the function, and the second timer, which is due, is not processed:
    its row is untouched and the pass has no event for it. *)
Theorem exception_without_text_aborts_pass :
  selected Examples.clock Unicode.garbled_first
  = [Unicode.garbling; Examples.fine] /\
  exists w',
    poll_and_execute_timers_checked Examples.clock
      (Unicode.import_module Examples.no_errors) None
      Unicode.str_failure Unicode.overflow_error Unicode.garbled_first
    = (Raise Unicode.unicode_error, w') /\
    store w' !! "beta" = Some Examples.fine /\
    new_events Unicode.garbled_first w'
    = [EvSave (in_flight 1001 Unicode.garbling);
       EvResolve (in_flight 1001 Unicode.garbling);
       EvCallback (in_flight 1001 Unicode.garbling)].
Proof.
  split; [vm_compute; reflexivity|].
  eexists. split; [vm_compute; reflexivity|].
  split; vm_compute; reflexivity.
Qed.

(** A periodicity of 10^13 minutes puts the new date out of range: line 67
    raises, and the [except] clause deactivates the timer, whose payload is
    already stored. *)
Example periodicity_out_of_range_deactivates :
  exists w' t',
    poll_and_execute_timers_checked Examples.clock
      (Examples.import_module Examples.no_errors) None
      Unicode.str_failure Unicode.overflow_error
      (Examples.world [Unicode.endless])
    = (Ok tt, w') /\
    store w' !! "job" = Some t' /\
    is_active t' = false /\
    err_msg t' = Some "date value out of range" /\
    callback_at t' = 500 /\
    executed_at t' = Some 1001 /\
    results t' = Some Examples.no_errors.
Proof.
  do 2 eexists. split; [vm_compute; reflexivity|].
  split; [vm_compute; reflexivity|]. repeat split.
Qed.

Lemma reschedule_by_periodicity_witness :
  exists r w' t',
    poll_and_execute_timers_checked Examples.clock
      (Unicode.import_module Examples.no_errors) None
      Unicode.str_failure Unicode.overflow_error Examples.two_timers
    = (r, w') /\
    store w' !! "beta" = Some t' /\
    callback_at t' = 500 + timedelta_minutes (Z.max 120 60) /\
    executed_at t' = None.
Proof.
  apply (reschedule_by_periodicity Examples.clock
           (Unicode.import_module Examples.no_errors) None
           Unicode.str_failure Unicode.overflow_error
           Examples.two_timers 1 Examples.fine Examples.no_errors 120).
  - wf_by_computation.
  - vm_compute; reflexivity.
  - vm_compute; reflexivity.
  - vm_compute; reflexivity.
  - reflexivity.
  - reflexivity.
  - reflexivity.
  - lia.
  - vm_compute; reflexivity.
Defined.

Lemma success_keeps_err_msg_witness :
  exists r w' t',
    poll_and_execute_timers_checked Examples.clock
      (Unicode.import_module Examples.no_errors) None
      Unicode.str_failure Unicode.overflow_error
      (Examples.world [Examples.recovered]) = (r, w') /\
    store w' !! "job" = Some t' /\
    err_msg t' = Some "boom".
Proof.
  apply (success_keeps_err_msg Examples.clock
           (Unicode.import_module Examples.no_errors) None
           Unicode.str_failure Unicode.overflow_error
           (Examples.world [Examples.recovered]) 0 Examples.recovered
           Examples.no_errors "boom").
  - wf_by_computation.
  - vm_compute; reflexivity.
  - vm_compute; reflexivity.
  - reflexivity.
  - vm_compute; reflexivity.
  - reflexivity.
  - intros d [= <-] _. vm_compute; reflexivity.
Defined.

Lemma in_flight_mark_saved_first_witness :
  exists w0 w1,
    (timers ← get_all_active_timers Examples.clock;
     for_each (take 1 timers)
       (execute_timer_checked Examples.clock
          (Unicode.import_module Examples.no_errors) None
          Unicode.str_failure Unicode.overflow_error))
      Examples.two_timers = (Ok tt, w0) /\
    mark_in_flight Examples.clock Examples.fine w0
    = (Ok (in_flight 1002 Examples.fine), w1) /\
    executed_at (in_flight 1002 Examples.fine) = Some 1002 /\
    store w1 !! "beta" = Some (in_flight 1002 Examples.fine) /\
    (forall e, e ∈ new_events Examples.two_timers w1 ->
       event_timer e = Some "beta" ->
       e = EvSave (in_flight 1002 Examples.fine)) /\
    poll_and_execute_timers_checked Examples.clock
      (Unicode.import_module Examples.no_errors) None
      Unicode.str_failure Unicode.overflow_error Examples.two_timers
    = (settle (Unicode.import_module Examples.no_errors) None
         Unicode.str_failure Unicode.overflow_error
         (in_flight 1002 Examples.fine);;
       for_each (drop 2 (selected Examples.clock Examples.two_timers))
         (execute_timer_checked Examples.clock
            (Unicode.import_module Examples.no_errors) None
            Unicode.str_failure Unicode.overflow_error)) w1 /\
    exists r w2 rest,
      settle (Unicode.import_module Examples.no_errors) None
        Unicode.str_failure Unicode.overflow_error
        (in_flight 1002 Examples.fine) w1 = (r, w2) /\
      new_events w1 w2 = EvResolve (in_flight 1002 Examples.fine) :: rest.
Proof.
  apply (in_flight_mark_saved_first Examples.clock
           (Unicode.import_module Examples.no_errors) None
           Unicode.str_failure Unicode.overflow_error
           Examples.two_timers 1 Examples.fine).
  - wf_by_computation.
  - vm_compute; reflexivity.
  - vm_compute; reflexivity.
Defined.

Lemma requested_interval_overrides_periodicity_witness :
  exists r w' t',
    poll_and_execute_timers_checked Examples.clock
      (Unicode.import_module (Examples.reschedule 90)) None
      Unicode.str_failure Unicode.overflow_error Examples.two_timers
    = (r, w') /\
    store w' !! "beta" = Some t' /\
    callback_at t' = 500 + timedelta_minutes 90 /\
    executed_at t' = None.
Proof.
  apply (requested_interval_overrides_periodicity Examples.clock
           (Unicode.import_module (Examples.reschedule 90)) None
           Unicode.str_failure Unicode.overflow_error
           Examples.two_timers 1 Examples.fine (Examples.reschedule 90) 90).
  - wf_by_computation.
  - vm_compute; reflexivity.
  - vm_compute; reflexivity.
  - vm_compute; reflexivity.
  - reflexivity.
  - reflexivity.
  - lia.
  - vm_compute; discriminate.
  - vm_compute; reflexivity.
Defined.

Lemma deactivated_iff_raised_witness :
  exists r w' t',
    poll_and_execute_timers_checked Examples.clock
      (Unicode.import_module Examples.no_errors) None
      Unicode.str_failure Unicode.overflow_error
      (Examples.world [Unicode.endless]) = (r, w') /\
    store w' !! "job" = Some t' /\
    (is_active t' = false <->
     (exists ex,
        handler_outcome (Unicode.import_module Examples.no_errors)
          (in_flight 1001 Unicode.endless) = inl ex /\
        Unicode.str_failure ex = None)
     \/ (exists res d,
           handler_outcome (Unicode.import_module Examples.no_errors)
             (in_flight 1001 Unicode.endless) = inr res /\
           truthy_errors (errors res) = false /\
           requested_interval Unicode.endless res = Some d /\ d <> 0 /\
           representable (500 + timedelta_minutes (Z.max d 60)) = false /\
           Unicode.str_failure (Unicode.overflow_error 500 (Z.max d 60))
           = None)).
Proof.
  apply (deactivated_iff_raised Examples.clock
           (Unicode.import_module Examples.no_errors) None
           Unicode.str_failure Unicode.overflow_error
           (Examples.world [Unicode.endless]) 0 Unicode.endless).
  - wf_by_computation.
  - vm_compute; reflexivity.
  - vm_compute; reflexivity.
Defined.

Lemma pass_stops_where_str_raises_witness :
  (none_aborts Examples.clock (Unicode.import_module Examples.no_errors) None
     Unicode.str_failure Unicode.overflow_error 1
     (selected Examples.clock Unicode.garbled_first) = true ->
   exists w',
     poll_and_execute_timers_checked Examples.clock
       (Unicode.import_module Examples.no_errors) None
       Unicode.str_failure Unicode.overflow_error Unicode.garbled_first
     = (Ok tt, w')) /\
  (forall i t ex',
     selected Examples.clock Unicode.garbled_first !! i = Some t ->
     reached Examples.clock (Unicode.import_module Examples.no_errors) None
       Unicode.str_failure Unicode.overflow_error Unicode.garbled_first i ->
     aborts (Unicode.import_module Examples.no_errors) None
       Unicode.str_failure Unicode.overflow_error
       (in_flight (mark_time Examples.clock Unicode.garbled_first i) t)
     = Some ex' ->
     exists w',
       poll_and_execute_timers_checked Examples.clock
         (Unicode.import_module Examples.no_errors) None
         Unicode.str_failure Unicode.overflow_error Unicode.garbled_first
       = (Raise ex', w') /\
       store w' !! name t
       = Some (in_flight (mark_time Examples.clock Unicode.garbled_first i) t) /\
       forall j u, (i < j)%nat ->
         selected Examples.clock Unicode.garbled_first !! j = Some u ->
         store w' !! name u = Some u).
Proof.
  apply (pass_stops_where_str_raises Examples.clock
           (Unicode.import_module Examples.no_errors) None
           Unicode.str_failure Unicode.overflow_error Unicode.garbled_first).
  wf_by_computation.
Defined.

Lemma failure_with_text_is_final_witness :
  exists r w' t',
    poll_and_execute_timers_checked Examples.clock
      (Unicode.import_module Examples.no_errors) None
      Unicode.str_failure Unicode.overflow_error Examples.two_timers
    = (r, w') /\
    store w' !! "alpha" = Some t' /\
    is_active t' = false /\
    err_msg t' = Some "boom" /\
    executed_at t' = Some 1001 /\
    forall ops, exists r' w'',
      run_ops_checked Examples.clock
        (Unicode.import_module Examples.no_errors) None
        Unicode.str_failure Unicode.overflow_error ops w' = (r', w'') /\
      store w'' !! "alpha" = Some t' /\
      forall u, u ∈ selected Examples.clock w'' -> name u <> "alpha".
Proof.
  apply (failure_with_text_is_final Examples.clock
           (Unicode.import_module Examples.no_errors) None
           Unicode.str_failure Unicode.overflow_error
           Examples.two_timers 0 Examples.crashing (OtherException "boom")).
  - wf_by_computation.
  - vm_compute; reflexivity.
  - vm_compute; reflexivity.
  - vm_compute; reflexivity.
  - reflexivity.
Defined.

Lemma handler_resolved_at_last_dot_witness :
  resolve_handler (Examples.import_module Examples.no_errors)
    (Examples.timer "job" "pkg.jobs.Fine" None None) Examples.empty_world
  = (match Examples.import_module Examples.no_errors "pkg.jobs" with
     | inl ex => Raise ex
     | inr module =>
         match module "Fine" with
         | inl ex => Raise ex
         | inr (inl ex) => Raise ex
         | inr (inr handler) => Ok handler
         end
     end,
     mkWorld ∅ 0 [EvResolve (Examples.timer "job" "pkg.jobs.Fine" None None)]).
Proof.
  apply (handler_resolved_at_last_dot
           (Examples.import_module Examples.no_errors)
           (Examples.timer "job" "pkg.jobs.Fine" None None) "pkg.jobs" "Fine"
           Examples.empty_world).
  - reflexivity.
  - reflexivity.
Defined.

Lemma message_validation_guards_row_witness :
  SQL.msg_from_data_object string Examples.context_to_json Examples.validate
    Examples.type_obj Examples.msg_obj Examples.bad_msg
  = inl (OtherException "namespace is missing") /\
  SQL.msg_load_from_data_object string Examples.context_to_json
    Examples.validate Examples.type_obj Examples.msg_obj Examples.bad_msg
  = (Some (OtherException "namespace is missing"), Examples.msg_obj).
Proof.
  apply (message_validation_guards_row string Examples.context_to_json
           Examples.validate Examples.type_obj Examples.msg_obj
           Examples.bad_msg (OtherException "namespace is missing")).
  reflexivity.
Defined.
